(** * Boat Maintenance Insights Demo (app.py): a shallow embedding

    The Streamlit script [app.py] loads a spreadsheet into a pandas frame,
    normalises it, attaches k-means labels to the issue texts, draws three
    charts, offers a category browser and exports a PDF summary.

    The script is modelled as it is written: every function of [app.py]
    is a Rocq function of the same name, written statement by statement
    over a small model of the pandas, scikit-learn, Streamlit and FPDF
    calls it makes.  Frames are mutable Python objects, so they live in
    a store and the functions run in a state-and-exception monad. *)

From Stdlib Require Import String Ascii List ZArith Lia Bool Arith.
From Stdlib Require Import Sorting.Sorted Sorting.Permutation DecimalString DecimalPos.
From Stdlib Require Import Floats.SpecFloat.
Import ListNotations.
Local Open Scope string_scope.
Local Open Scope list_scope.

Set Implicit Arguments.

(* ===================================================================== *)
(** ** Python strings (the ASCII part of [str]) *)
(* ===================================================================== *)

Module PyStr.

(** [str.isspace] on one ASCII character: tab, line feed, vertical tab,
    form feed, carriage return, the four separators 0x1c-0x1f, space. *)
Definition isspace (c : ascii) : bool :=
  let n := nat_of_ascii c in
  (Nat.leb 9 n && Nat.leb n 13) || (Nat.leb 28 n && Nat.leb n 32).

Definition isupper (c : ascii) : bool :=
  let n := nat_of_ascii c in Nat.leb 65 n && Nat.leb n 90.

Definition islower (c : ascii) : bool :=
  let n := nat_of_ascii c in Nat.leb 97 n && Nat.leb n 122.

Definition to_lower (c : ascii) : ascii :=
  if isupper c then ascii_of_nat (nat_of_ascii c + 32) else c.

Definition to_upper (c : ascii) : ascii :=
  if islower c then ascii_of_nat (nat_of_ascii c - 32) else c.

Fixpoint lstrip (s : string) : string :=
  match s with
  | EmptyString => EmptyString
  | String c t => if isspace c then lstrip t else s
  end.

(** [rstrip]: a character is dropped when it is a space and everything
    after it has been dropped. *)
Fixpoint rstrip (s : string) : string :=
  match s with
  | EmptyString => EmptyString
  | String c t =>
      match rstrip t with
      | EmptyString => if isspace c then EmptyString else String c EmptyString
      | t' => String c t'
      end
  end.

(** [s.strip()] *)
Definition strip (s : string) : string := rstrip (lstrip s).

(** [s.lower()] *)
Fixpoint lower (s : string) : string :=
  match s with
  | EmptyString => EmptyString
  | String c t => String (to_lower c) (lower t)
  end.

(** [s.title()]: a cased character is upper-cased when the character
    before it is not cased and lower-cased otherwise. *)
Fixpoint title_from (previous_is_cased : bool) (s : string) : string :=
  match s with
  | EmptyString => EmptyString
  | String c t =>
      if islower c then
        String (if previous_is_cased then c else to_upper c) (title_from true t)
      else if isupper c then
        String (if previous_is_cased then to_lower c else c) (title_from true t)
      else String c (title_from false t)
  end.

Definition title (s : string) : string := title_from false s.

(** [s.replace(" ", "_")] *)
Fixpoint replace_space (s : string) : string :=
  match s with
  | EmptyString => EmptyString
  | String c t =>
      String (if Ascii.eqb c " "%char then "_"%char else c) (replace_space t)
  end.

(** [str(n)] for a natural number. *)
Definition of_nat (n : nat) : string := NilZero.string_of_uint (Nat.to_uint n).

(** [str(z)] for an integer. *)
Definition of_Z (z : Z) : string := NilZero.string_of_int (Z.to_int z).

(** Zero padding to [width] characters, as [%02d] and [%04d] do for the
    non-negative fields of a date. *)
Definition zfill (width : nat) (s : string) : string :=
  String.concat "" (repeat "0" (width - String.length s)) ++ s.

End PyStr.

(* ===================================================================== *)
(** ** Exceptions and results *)
(* ===================================================================== *)

(** The exception classes the calls of [app.py] can raise.  The script
    defines no exception class of its own. *)
Inductive exn : Type :=
| KeyError (msg : string)
| AttributeError (msg : string)
| ValueError (msg : string)
| TypeError (msg : string)
| IndexingError (msg : string)
| FileNotFoundError (msg : string)
| IndexError (msg : string)
| FPDFUnicodeEncodingException (msg : string).

Inductive result (A : Type) : Type :=
| Ok (a : A)
| Raise (e : exn).
Arguments Ok {A} a.
Arguments Raise {A} e.

Definition is_ValueError (e : exn) : bool :=
  match e with ValueError _ => true | _ => false end.


Definition is_encoding_error (e : exn) : bool :=
  match e with FPDFUnicodeEncodingException _ => true | _ => false end.

(* ===================================================================== *)
(** ** pandas: cells, series and frames *)
(* ===================================================================== *)

(** [pandas.Timestamp]: the calendar fields that the script reads. *)
Record Timestamp : Type := mkTimestamp {
  year : Z; month : Z; day : Z; hour : Z; minute : Z; second : Z
}.

(** One value stored in a column.  The missing marker of an object or a
    float column is the float NaN itself; a datetime column has [NaT]. *)
Inductive cell : Type :=
| Str (s : string)
| Int (z : Z)
| Flt (f : spec_float)
| Time (t : Timestamp)
| NaT.

Definition NaN : cell := Flt S754_nan.

Inductive dtype : Type := Object | Int64 | Float64 | Datetime64.

Record Series : Type := mkSeries { s_dtype : dtype; values : list cell }.

(** A frame: a [RangeIndex] of [nrows] rows and labelled columns, in
    column order.  Labels are text and are taken to be unique; selection
    by label takes the first column with that label. *)
Record DataFrame : Type := mkFrame {
  nrows : nat;
  columns : list (string * Series)
}.

(** [pandas.isna] / [pandas.notna] on one value. *)
Definition isna (c : cell) : bool :=
  match c with
  | Flt S754_nan => true
  | NaT => true
  | _ => false
  end.

Definition notna (c : cell) : bool := negb (isna c).

(** numpy's conversion of an integer to float64 (round to nearest even,
    53 bits of precision). *)
Definition float64_of_Z (z : Z) : spec_float := binary_normalize 53 1024 z 0 false.

(** The integer a float is exactly equal to, if there is one. *)
Definition float_integer_value (f : spec_float) : option Z :=
  match f with
  | S754_zero _ => Some 0%Z
  | S754_finite s m e =>
      let sign (v : Z) := if s then Z.opp v else v in
      match e with
      | Z0 => Some (sign (Zpos m))
      | Zpos k => Some (sign (Zpos m * 2 ^ Zpos k)%Z)
      | Zneg k =>
          if (Zpos m mod 2 ^ Zpos k =? 0)%Z
          then Some (sign (Zpos m / 2 ^ Zpos k)%Z)
          else None
      end
  | _ => None
  end.

Definition timestamp_eqb (a b : Timestamp) : bool :=
  (year a =? year b)%Z && (month a =? month b)%Z && (day a =? day b)%Z &&
  (hour a =? hour b)%Z && (minute a =? minute b)%Z && (second a =? second b)%Z.

Definition spec_float_eqb (a b : spec_float) : bool :=
  match a, b with
  | S754_zero s, S754_zero s' => Bool.eqb s s'
  | S754_infinity s, S754_infinity s' => Bool.eqb s s'
  | S754_nan, S754_nan => true
  | S754_finite s m e, S754_finite s' m' e' =>
      Bool.eqb s s' && Pos.eqb m m' && Z.eqb e e'
  | _, _ => false
  end.

(** Identity of two stored values, as the hash table behind
    [value_counts] and [unique] sees the text values of this script. *)
Definition cell_eqb (a b : cell) : bool :=
  match a, b with
  | Str s, Str s' => String.eqb s s'
  | Int z, Int z' => Z.eqb z z'
  | Flt f, Flt f' => spec_float_eqb f f'
  | Time t, Time t' => timestamp_eqb t t'
  | NaT, NaT => true
  | _, _ => false
  end.

(** [df[label]] *)
Fixpoint lookup_column (label : string) (cols : list (string * Series))
  : option Series :=
  match cols with
  | [] => None
  | (l, s) :: rest => if String.eqb l label then Some s else lookup_column label rest
  end.

Definition getitem (df : DataFrame) (label : string) : result Series :=
  match lookup_column label (columns df) with
  | Some s => Ok s
  | None => Raise (KeyError label)
  end.

(** The value a frame holds in column [label] at row [i]. *)
Definition cell_at (df : DataFrame) (label : string) (i : nat) : option cell :=
  match lookup_column label (columns df) with
  | Some s => nth_error (values s) i
  | None => None
  end.

(** [df[label] = s]: an existing column is replaced where it stands, a
    new one is appended. *)
Fixpoint assign_column (label : string) (s : Series) (cols : list (string * Series))
  : list (string * Series) :=
  match cols with
  | [] => [(label, s)]
  | (l, s0) :: rest =>
      if String.eqb l label then (l, s) :: rest
      else (l, s0) :: assign_column label s rest
  end.

Definition setitem (df : DataFrame) (label : string) (s : Series) : DataFrame :=
  mkFrame (nrows df) (assign_column label s (columns df)).

(** [df.columns = df.columns.str.strip().str.lower().str.replace(" ", "_")] *)
Definition normalize_label (l : string) : string :=
  PyStr.replace_space (PyStr.lower (PyStr.strip l)).

Definition rename_columns (f : string -> string) (df : DataFrame) : DataFrame :=
  mkFrame (nrows df) (map (fun ls => (f (fst ls), snd ls)) (columns df)).

Definition is_Str (c : cell) : bool := match c with Str _ => true | _ => false end.

Definition is_number (c : cell) : bool :=
  match c with Int _ | Flt _ => true | _ => false end.

Definition is_Time (c : cell) : bool := match c with Time _ => true | _ => false end.

(** Whether [s.str] is available: the column has to be an object column
    for which [pandas.api.types.infer_dtype(values, skipna=True)] says
    "string", "empty", "mixed" or "mixed-integer", that is, its present
    values are not all numbers and not all timestamps. *)
Definition str_accessor_ok (s : Series) : bool :=
  match s_dtype s with
  | Object =>
      let present := filter notna (values s) in
      match present with
      | [] => true
      | _ => negb (forallb is_number present) && negb (forallb is_Time present)
      end
  | _ => false
  end.

(** [s.str.f()] for a string method [f]: values that are not text,
    the missing marker among them, come out as NaN. *)
Definition str_cell (f : string -> string) (c : cell) : cell :=
  match c with
  | Str x => Str (f x)
  | _ => NaN
  end.

Definition str_method (f : string -> string) (s : Series) : result Series :=
  if str_accessor_ok s then Ok (mkSeries Object (map (str_cell f) (values s)))
  else Raise (AttributeError "Can only use .str accessor with string values!").

(** [s.dropna()] *)
Definition dropna (s : Series) : Series :=
  mkSeries (s_dtype s) (filter notna (values s)).

(** [s.tolist()] *)
Definition tolist (s : Series) : list cell := values s.

(** [s.notna()] *)
Definition notna_mask (s : Series) : list bool := map notna (values s).

(** Counting the values of a column: pandas builds a hash table in one
    pass over the values, so the keys come out in first-seen order. *)
Section Counting.
Variable K : Type.
Variable keqb : K -> K -> bool.

Fixpoint bump (k : K) (tbl : list (K * nat)) : list (K * nat) :=
  match tbl with
  | [] => [(k, 1)]
  | (k', n) :: rest =>
      if keqb k' k then (k', S n) :: rest else (k', n) :: bump k rest
  end.

Definition count_table (l : list K) : list (K * nat) :=
  fold_left (fun tbl k => bump k tbl) l [].

(** The descending sort of the counts.  pandas sorts them with numpy's
    quicksort, which is not stable, so the order in which entries of
    equal count come out is the library's: [rank] says where the sort
    leaves the entry at each position of the table among its equals, and
    [arrange] puts the table in that order. *)
Fixpoint insert_rank (e : nat * (K * nat)) (l : list (nat * (K * nat)))
  : list (nat * (K * nat)) :=
  match l with
  | [] => [e]
  | h :: t => if Nat.leb (fst e) (fst h) then e :: l else h :: insert_rank e t
  end.

Definition arrange (rank : nat -> nat) (tbl : list (K * nat)) : list (K * nat) :=
  map snd (fold_right insert_rank []
             (combine (map rank (seq 0 (length tbl))) tbl)).

(** Over the arranged table, an entry is put in front of the first entry
    whose count is not larger than its own. *)
Fixpoint insert_desc (e : K * nat) (l : list (K * nat)) : list (K * nat) :=
  match l with
  | [] => [e]
  | h :: t => if Nat.leb (snd h) (snd e) then e :: l else h :: insert_desc e t
  end.

Definition sort_desc (l : list (K * nat)) : list (K * nat) :=
  fold_right insert_desc [] l.

(** For stating what the table holds: how often [k] occurs in [l], the
    position of its first occurrence, and the count a table gives it. *)
Definition occurrences (k : K) (l : list K) : nat :=
  length (filter (keqb k) l).

Fixpoint first_index (k : K) (l : list K) : nat :=
  match l with
  | [] => 0
  | x :: t => if keqb x k then 0 else S (first_index k t)
  end.

Fixpoint count_of (k : K) (tbl : list (K * nat)) : nat :=
  match tbl with
  | [] => 0
  | (k', n) :: rest => if keqb k' k then n else count_of k rest
  end.

End Counting.

(** [.head(n)] *)
Definition head {A} (n : nat) (l : list A) : list A := firstn n l.

(** [s.unique()] *)
Definition unique (s : Series) : list cell :=
  map fst (count_table cell_eqb (values s)).

(** A monthly [pandas.Period] is stored as its ordinal, the number of
    months since January 1970. *)
Abbreviation Period := Z (only parsing).

Definition to_period_M (t : Timestamp) : Period :=
  ((year t - 1970) * 12 + (month t - 1))%Z.

(** A datetime column holds timestamps and [NaT] and nothing else. *)
Definition is_datetimelike (s : Series) : bool :=
  match s_dtype s with
  | Datetime64 =>
      forallb (fun c => match c with Time _ | NaT => true | _ => false end) (values s)
  | _ => false
  end.

(** [s.dt.to_period("M")]; [None] is the missing period. *)
Definition period_key (c : cell) : option Period :=
  match c with Time t => Some (to_period_M t) | _ => None end.

Definition dt_to_period_M (s : Series) : result (list (option Period)) :=
  if is_datetimelike s then Ok (map period_key (values s))
  else Raise (AttributeError "Can only use .dt accessor with datetimelike values").

Fixpoint insert_asc (e : Period * nat) (l : list (Period * nat)) : list (Period * nat) :=
  match l with
  | [] => [e]
  | h :: t => if (fst e <=? fst h)%Z then e :: l else h :: insert_asc e t
  end.

Definition sort_index (l : list (Period * nat)) : list (Period * nat) :=
  fold_right insert_asc [] l.

Fixpoint present_keys (keys : list (option Period)) : list Period :=
  match keys with
  | [] => []
  | Some p :: rest => p :: present_keys rest
  | None :: rest => present_keys rest
  end.

(** [df.groupby(keys).size()]: rows with a missing key belong to no group,
    the groups come in ascending key order. *)
Definition groupby_size (keys : list (option Period)) : list (Period * nat) :=
  sort_index (count_table Z.eqb (present_keys keys)).

(** [pd.to_datetime(s, errors="coerce")]: a timestamp stays, a missing
    value becomes [NaT], and so does whatever [parse] cannot read. *)
Definition to_datetime_coerce (parse : cell -> option Timestamp) (s : Series) : Series :=
  mkSeries Datetime64
    (map (fun c =>
            match c with
            | Time t => Time t
            | NaT => NaT
            | Flt S754_nan => NaT
            | other => match parse other with Some t => Time t | None => NaT end
            end) (values s)).

(** Writing [vals] in order into the positions of [old] at which [mask]
    is set. *)
Fixpoint scatter (mask : list bool) (vals old : list cell) : list cell :=
  match mask, old with
  | true :: ms, o :: os =>
      match vals with
      | v :: vs => v :: scatter ms vs os
      | [] => o :: scatter ms [] os
      end
  | false :: ms, o :: os => o :: scatter ms vals os
  | _, _ => old
  end.

Definition count_true (mask : list bool) : nat := length (filter (fun b => b) mask).

(** [df.loc[mask, label] = labels] for an integer array [labels].

    When the frame has no column [label], pandas first adds one filled
    with NaN, which makes it a float64 column, and then writes the values
    into the selected rows.  When the column exists, the selected rows
    are overwritten and the other rows keep what they hold. *)
Definition loc_setitem_mask (df : DataFrame) (mask : list bool) (label : string)
    (labels : list Z) : result DataFrame :=
  if negb (Nat.eqb (length mask) (nrows df)) then
    Raise (IndexingError "Item wrong length")
  else if negb (Nat.eqb (length labels) (count_true mask)) then
    Raise (ValueError "cannot set using a mask with a different number of values")
  else
    let floats := map (fun z => Flt (float64_of_Z z)) labels in
    match lookup_column label (columns df) with
    | None =>
        Ok (setitem df label
              (mkSeries Float64 (scatter mask floats (repeat NaN (nrows df)))))
    | Some s =>
        match s_dtype s with
        | Float64 => Ok (setitem df label (mkSeries Float64 (scatter mask floats (values s))))
        | Int64 => Ok (setitem df label (mkSeries Int64 (scatter mask (map Int labels) (values s))))
        | _ => Ok (setitem df label (mkSeries Object (scatter mask (map Int labels) (values s))))
        end
    end.

(** Python's [==] and [<=] on two stored values. *)
Definition as_float (c : cell) : option spec_float :=
  match c with
  | Flt f => Some f
  | Int z => Some (float64_of_Z z)
  | _ => None
  end.

Definition py_eq (a b : cell) : bool :=
  match a, b with
  | Str s, Str s' => String.eqb s s'
  | Time t, Time t' => timestamp_eqb t t'
  | _, _ =>
      match as_float a, as_float b with
      | Some x, Some y => SFeqb x y
      | _, _ => false
      end
  end.

Definition py_le (a b : cell) : bool :=
  match a, b with
  | Str s, Str s' => String.leb s s'
  | _, _ =>
      match as_float a, as_float b with
      | Some x, Some y => SFleb x y
      | _, _ => false
      end
  end.

Fixpoint insert_cell (c : cell) (l : list cell) : list cell :=
  match l with
  | [] => [c]
  | h :: t => if py_le c h then c :: l else h :: insert_cell c t
  end.

(** [sorted(values)]: text sorts with text and numbers with numbers. *)
Definition sorted (l : list cell) : result (list cell) :=
  if forallb is_Str l || forallb is_number l then Ok (fold_right insert_cell [] l)
  else Raise (TypeError "'<' not supported between instances").

(** [s == c] *)
Definition eq_mask (s : Series) (c : option cell) : list bool :=
  map (fun x => match c with Some v => py_eq x v | None => false end) (values s).

Fixpoint select (mask : list bool) (l : list cell) : list cell :=
  match mask, l with
  | m :: ms, x :: xs => if m then x :: select ms xs else select ms xs
  | _, _ => []
  end.

(** [df[mask]] *)
Definition filter_rows (df : DataFrame) (mask : list bool) : DataFrame :=
  mkFrame (count_true mask)
    (map (fun ls => (fst ls, mkSeries (s_dtype (snd ls)) (select mask (values (snd ls)))))
         (columns df)).

(** [df[[l1, ..., ln]]] *)
Fixpoint take_columns (df : DataFrame) (labels : list string)
  : result (list (string * Series)) :=
  match labels with
  | [] => Ok []
  | l :: rest =>
      match lookup_column l (columns df) with
      | None => Raise (KeyError l)
      | Some s =>
          match take_columns df rest with
          | Ok cs => Ok ((l, s) :: cs)
          | Raise e => Raise e
          end
      end
  end.

Definition getitem_list (df : DataFrame) (labels : list string) : result DataFrame :=
  match take_columns df labels with
  | Ok cs => Ok (mkFrame (nrows df) cs)
  | Raise e => Raise e
  end.

(* ===================================================================== *)
(** ** The libraries behind the script *)
(* ===================================================================== *)

(** What the script takes from scikit-learn, numpy and the Python
    runtime without this development looking inside: the TF-IDF
    vectorizer, k-means, the random generator they draw from, the reader
    of date text and the printing of a float. *)
Class Libraries : Type := {
  (** the sparse document-term matrix and its number of rows *)
  matrix : Type;
  n_samples : matrix -> nat;
  (** [numpy.random.RandomState] and [RandomState(seed)] *)
  RandomState : Type;
  RandomState_seed : Z -> RandomState;
  (** [TfidfVectorizer(stop_words=sw).fit_transform(docs)] *)
  tfidf_fit_transform : string -> list cell -> result matrix;
  (** [KMeans(n_clusters, n_init).fit_predict(X)] drawing from a generator;
      the generator is returned as the run leaves it *)
  kmeans_fit_predict : nat -> nat -> RandomState -> matrix -> result (list Z) * RandomState;
  (** the scalar reader behind [pd.to_datetime] *)
  parse_datetime : cell -> option Timestamp;
  (** [str(x)] for a float *)
  float_repr : spec_float -> string;
  (** numpy's quicksort behind [sort_values]: for the counts of a table,
      the rank it gives the entry at a position among the entries of
      the same count *)
  quicksort_ties : list nat -> nat -> nat
}.

(** The documented behaviour of these calls that the proofs rely on. *)
Record LibrariesSpec (L : Libraries) : Prop := {
  (** one matrix row per document *)
  tfidf_rows : forall sw docs X,
    tfidf_fit_transform sw docs = Ok X -> n_samples X = length docs;
  (** k-means refuses fewer samples than clusters with a [ValueError] *)
  kmeans_too_few : forall k n r X,
    n_samples X < k ->
    exists msg, fst (kmeans_fit_predict k n r X) = Raise (ValueError msg);
  (** one label per row, each the number of a cluster *)
  kmeans_labels : forall k n r X labels,
    fst (kmeans_fit_predict k n r X) = Ok labels ->
    length labels = n_samples X /\
    Forall (fun l => (0 <= l < Z.of_nat k)%Z) labels
}.

(** A small executable stand-in for the libraries, for running the model
    on concrete tables: a document is represented by its length, and a
    row is put in the cluster numbered by that length plus the
    generator state, modulo the number of clusters. *)
Definition toy_tfidf (sw : string) (docs : list cell) : result (list nat) :=
  if negb (forallb is_Str docs) then
    Raise (AttributeError "'int' object has no attribute 'lower'")
  else if forallb (fun c => match c with Str s => Nat.eqb (String.length s) 0 | _ => true end) docs then
    Raise (ValueError "empty vocabulary; perhaps the documents only contain stop words")
  else Ok (map (fun c => match c with Str s => String.length s | _ => 0 end) docs).

Definition toy_kmeans (k n_init : nat) (r : Z) (X : list nat) : result (list Z) * Z :=
  if Nat.eqb k 0 then
    (Raise (ValueError "The 'n_clusters' parameter of KMeans must be an int in the range [1, inf)"), r)
  else if Nat.ltb (length X) k then
    (Raise (ValueError ("n_samples=" ++ PyStr.of_nat (length X) ++
                        " should be >= n_clusters=" ++ PyStr.of_nat k ++ ".")), r)
  else (Ok (map (fun x => Z.of_nat ((x + Z.to_nat r) mod k)) X), (r + 1)%Z).

Definition toy_libraries : Libraries := {|
  matrix := list nat;
  n_samples := @length nat;
  RandomState := Z;
  RandomState_seed := fun seed => seed;
  tfidf_fit_transform := toy_tfidf;
  kmeans_fit_predict := toy_kmeans;
  parse_datetime := fun _ => None;
  float_repr := fun _ => "nan";
  quicksort_ties := fun _ _ => 0
|}.


(** [s.value_counts()]: missing values are dropped, distinct values are
    counted in one pass and the counts are sorted in descending order
    ([sort_values(ascending=False)]). *)
Definition value_counts {L : Libraries} (s : Series) : list (cell * nat) :=
  let tbl := count_table cell_eqb (filter notna (values s)) in
  sort_desc (arrange (quicksort_ties (map snd tbl)) tbl).

(* ===================================================================== *)
(** ** Streamlit widgets and the PDF document *)
(* ===================================================================== *)

Inductive Plot : Type :=
| BarH (data : list (cell * nat)) (color : string)
| Line (data : list (Period * nat)) (marker : string).

Record Figure : Type := mkFigure {
  plot : Plot;
  yaxis_inverted : bool;
  xlabel : string;
  ylabel : string;
  fig_title : string
}.

(** One call of [FPDF.cell], with the font in force. *)
Record PdfCell : Type := mkPdfCell {
  cell_w : Z; cell_h : Z; txt : string; ln : bool; align : string;
  font_family : string; font_size : Z
}.

Record FPDF : Type := mkFPDF {
  auto_page_break : bool * Z;
  page_count : nat;
  font : string * Z;
  cells : list PdfCell
}.

(** The content written by [pdf.output(buf)]. *)
Definition Document : Type := list PdfCell.

Inductive Widget : Type :=
| PageConfig (page_title layout : string)
| Title (s : string)
| Text (s : string)
| FileUploader (label : string) (types : list string)
| Columns (n : nat)
| PyPlot (fig : Figure)
| Subheader (s : string)
| Selectbox (label : string) (options : list cell)
| Table (df : DataFrame)
| DownloadButton (label : string) (data : Document) (file_name mime : string).

(** The three figures of the page, as [plt.subplots], [plot], the axis
    calls and [st.pyplot] leave them. *)
Definition top_issues_chart (counts : list (cell * nat)) : Widget :=
  PyPlot (mkFigure (BarH counts "") true "Number of Reports" "Issue Type"
            "Top 10 Recurring Boat Issue Types").

Definition top_boats_chart (counts : list (cell * nat)) : Widget :=
  PyPlot (mkFigure (BarH counts "orange") true "Number of Reports" "Boat Name"
            "Top 10 Boats by Reported Issues").

Definition timeline_chart (buckets : list (Period * nat)) : Widget :=
  PyPlot (mkFigure (Line buckets "o") false "Month" "Number of Issues"
            "Reported Issues Over Time").

(** [counts.plot(kind="barh", ax=ax)]: the bar plot of pandas reads the
    first bar, so a series without entries is refused with an
    [IndexError]. *)
Definition plot_barh (counts : list (cell * nat)) : result unit :=
  match counts with
  | [] => Raise (IndexError "index 0 is out of bounds for axis 0 with size 0")
  | _ :: _ => Ok tt
  end.

(** [series.plot(kind="line", marker="o", ax=ax)] over a period index: a
    series without entries is refused with a [ValueError]. *)
Definition plot_line (buckets : list (Period * nat)) : result unit :=
  match buckets with
  | [] => Raise (ValueError "zero-size array to reduction operation minimum which has no identity")
  | _ :: _ => Ok tt
  end.

Definition is_chart (w : Widget) : bool :=
  match w with PyPlot _ => true | _ => false end.

Definition FPDF_new : FPDF := mkFPDF (true, 20%Z) 0 ("", 0%Z) [].

Definition set_auto_page_break (pdf : FPDF) (auto : bool) (margin : Z) : FPDF :=
  mkFPDF (auto, margin) (page_count pdf) (font pdf) (cells pdf).

Definition add_page (pdf : FPDF) : FPDF :=
  mkFPDF (auto_page_break pdf) (S (page_count pdf)) (font pdf) (cells pdf).

Definition set_font (pdf : FPDF) (family : string) (size : Z) : FPDF :=
  mkFPDF (auto_page_break pdf) (page_count pdf) (family, size) (cells pdf).

(** The core fonts are written in latin-1.  A Python string is held
    here as its UTF-8 bytes, so its characters are all in latin-1 exactly
    when each is an ASCII byte or a two-byte sequence led by 0xC2 or 0xC3
    (the code points up to U+00FF). *)
Fixpoint latin1 (s : string) : bool :=
  match s with
  | EmptyString => true
  | String c t =>
      let n := nat_of_ascii c in
      if Nat.ltb n 128 then latin1 t
      else if Nat.eqb n 194 || Nat.eqb n 195 then
        match t with
        | String c2 t2 =>
            Nat.leb 128 (nat_of_ascii c2) && Nat.leb (nat_of_ascii c2) 191 && latin1 t2
        | EmptyString => false
        end
      else false
  end.

(** [pdf.cell(w, h, txt=text, ln=newline, align=alignment)]: with a core
    font the text has to be in latin-1, other text is refused. *)
Definition pdf_cell (pdf : FPDF) (w h : Z) (text : string) (newline : bool)
    (alignment : string) : result FPDF :=
  if latin1 text then
    Ok (mkFPDF (auto_page_break pdf) (page_count pdf) (font pdf)
          (cells pdf ++ [mkPdfCell w h text newline alignment
                           (fst (font pdf)) (snd (font pdf))]))
  else
    Raise (FPDFUnicodeEncodingException
             "Character outside the range of characters supported by the font used").

Definition pdf_output (pdf : FPDF) : Document := cells pdf.

(** [t.strftime('%Y-%m-%d %H:%M')] *)
Definition strftime_minutes (t : Timestamp) : string :=
  PyStr.zfill 4 (PyStr.of_Z (year t)) ++ "-" ++
  PyStr.zfill 2 (PyStr.of_Z (month t)) ++ "-" ++
  PyStr.zfill 2 (PyStr.of_Z (day t)) ++ " " ++
  PyStr.zfill 2 (PyStr.of_Z (hour t)) ++ ":" ++
  PyStr.zfill 2 (PyStr.of_Z (minute t)).

(** [str(t)] for a timestamp. *)
Definition timestamp_str (t : Timestamp) : string :=
  PyStr.zfill 4 (PyStr.of_Z (year t)) ++ "-" ++
  PyStr.zfill 2 (PyStr.of_Z (month t)) ++ "-" ++
  PyStr.zfill 2 (PyStr.of_Z (day t)) ++ " " ++
  PyStr.zfill 2 (PyStr.of_Z (hour t)) ++ ":" ++
  PyStr.zfill 2 (PyStr.of_Z (minute t)) ++ ":" ++
  PyStr.zfill 2 (PyStr.of_Z (second t)).

(* ===================================================================== *)
(** ** The world of one script run *)
(* ===================================================================== *)

(** A spreadsheet file, seen through [pd.read_excel]: its first sheet as
    a frame, or content that is no workbook. *)
Inductive Workbook : Type :=
| Sheet (table : DataFrame)
| Unreadable.

Inductive FileSource : Type :=
| Path (p : string)
| Upload (wb : Workbook).

Definition frame_ref : Type := nat.

Definition empty_frame : DataFrame := mkFrame 0 [].

Fixpoint store_at {A} (i : nat) (x : A) (l : list A) : list A :=
  match l, i with
  | [], _ => []
  | _ :: t, O => x :: t
  | h :: t, S j => h :: store_at j x t
  end.

Section App.
Context {L : Libraries}.

(** Frames are Python objects: a variable holds a reference into
    [frames].  [ui] is what the page shows so far, in order. *)
Record World : Type := mkWorld {
  frames : list DataFrame;
  ui : list Widget;
  clock : Timestamp;
  disk : list (string * Workbook);
  global_rng : RandomState;
  uploaded : option Workbook;
  selected : nat
}.

Definition with_frames (fs : list DataFrame) (w : World) : World :=
  mkWorld fs (ui w) (clock w) (disk w) (global_rng w) (uploaded w) (selected w).

Definition with_ui (u : list Widget) (w : World) : World :=
  mkWorld (frames w) u (clock w) (disk w) (global_rng w) (uploaded w) (selected w).

Definition with_global_rng (g : RandomState) (w : World) : World :=
  mkWorld (frames w) (ui w) (clock w) (disk w) g (uploaded w) (selected w).

(** Computations that read and change the world and may raise; what
    was done before an exception stays done. *)
Definition M (A : Type) : Type := World -> result A * World.

Definition ret {A} (a : A) : M A := fun w => (Ok a, w).

Definition bind {A B} (m : M A) (k : A -> M B) : M B :=
  fun w =>
    match m w with
    | (Ok a, w') => k a w'
    | (Raise e, w') => (Raise e, w')
    end.

Definition lift {A} (r : result A) : M A := fun w => (r, w).

Notation "x <- m ;; k" := (bind m (fun x => k))
  (at level 61, m at next level, right associativity).
Notation "m ;; k" := (bind m (fun _ => k))
  (at level 61, right associativity).

Definition new_frame (d : DataFrame) : M frame_ref :=
  fun w => (Ok (length (frames w)), with_frames (frames w ++ [d]) w).

Definition frame_at (df : frame_ref) (w : World) : DataFrame :=
  nth df (frames w) empty_frame.

Definition get_frame (df : frame_ref) : M DataFrame :=
  fun w => (Ok (frame_at df w), w).

Definition put_frame (df : frame_ref) (d : DataFrame) : M unit :=
  fun w => (Ok tt, with_frames (store_at df d (frames w)) w).

(** [df[label]] on the frame object [df] *)
Definition column (df : frame_ref) (label : string) : M Series :=
  d <- get_frame df ;; lift (getitem d label).

(** [df[label] = s] on the frame object [df] *)
Definition set_column (df : frame_ref) (label : string) (s : Series) : M unit :=
  d <- get_frame df ;; put_frame df (setitem d label s).

Definition render (x : Widget) : M unit :=
  fun w => (Ok tt, with_ui (ui w ++ [x]) w).

Definition datetime_now : M Timestamp := fun w => (Ok (clock w), w).

Fixpoint disk_lookup (p : string) (files : list (string * Workbook)) : option Workbook :=
  match files with
  | [] => None
  | (q, wb) :: rest => if String.eqb q p then Some wb else disk_lookup p rest
  end.

(** The sheet that [pd.read_excel(file)] parses. *)
Definition sheet_of (file : FileSource) (w : World) : result DataFrame :=
  let found :=
    match file with
    | Upload wb => Ok wb
    | Path p =>
        match disk_lookup p (disk w) with
        | Some wb => Ok wb
        | None => Raise (FileNotFoundError p)
        end
    end in
  match found with
  | Ok (Sheet table) => Ok table
  | Ok Unreadable => Raise (ValueError "Excel file format cannot be determined")
  | Raise e => Raise e
  end.

(** [pd.read_excel(file)]: a new frame object *)
Definition read_excel (file : FileSource) : M frame_ref :=
  fun w =>
    match sheet_of file w with
    | Ok table => new_frame table w
    | Raise e => (Raise e, w)
    end.

(** The estimator object [KMeans(n_clusters, random_state, n_init)]. *)
Record KMeans : Type := mkKMeans {
  n_clusters : nat;
  random_state : option Z;
  n_init : nat
}.

(** [kmeans.fit_predict(X)].  As [sklearn.utils.check_random_state]
    has it, a seed makes a fresh generator and no seed means the
    generator shared by the whole process, which the run advances. *)
Definition fit_predict (kmeans : KMeans) (X : matrix) : M (list Z) :=
  fun w =>
    match random_state kmeans with
    | Some seed =>
        (fst (kmeans_fit_predict (n_clusters kmeans) (n_init kmeans)
                (RandomState_seed seed) X), w)
    | None =>
        let '(r, g) := kmeans_fit_predict (n_clusters kmeans) (n_init kmeans)
                         (global_rng w) X in
        (r, with_global_rng g w)
    end.

(** [str(x)] inside an f-string *)
Definition py_str (c : cell) : string :=
  match c with
  | Str s => s
  | Int z => PyStr.of_Z z
  | Flt f => float_repr f
  | Time t => timestamp_str t
  | NaT => "NaT"
  end.

(* ------------------------------------------------------------------- *)
(** ** app.py *)
(* ------------------------------------------------------------------- *)

Definition DEFAULT_FILE : string := "chicago_boat_issues.xlsx".

(** [load_data(file)].  ([st.cache_data] hands out a copy of the frame
    on every call, so each call yields a frame object of its own.) *)
Definition load_data (file : FileSource) : M frame_ref :=
  df <- read_excel file ;;
  (d <- get_frame df ;; put_frame df (rename_columns normalize_label d)) ;;
  (s <- column df "boat_name" ;;
   s <- lift (str_method PyStr.strip s) ;;
   s <- lift (str_method PyStr.lower s) ;;
   set_column df "boat_name" s) ;;
  (s <- column df "boat_issue" ;;
   s <- lift (str_method PyStr.strip s) ;;
   set_column df "boat_issue" s) ;;
  (s <- column df "boat_issue_(class)" ;;
   s <- lift (str_method PyStr.strip s) ;;
   s <- lift (str_method PyStr.title s) ;;
   set_column df "boat_issue_class" s) ;;
  (s <- column df "date" ;;
   set_column df "date" (to_datetime_coerce parse_datetime s)) ;;
  ret df.

(** [ai_cluster_issues(df, n_clusters=6)] *)
Definition ai_cluster_issues (df : frame_ref) (n_clusters : nat) : M frame_ref :=
  s <- column df "boat_issue" ;;
  let issue_texts := tolist (dropna s) in
  X <- lift (tfidf_fit_transform "english" issue_texts) ;;
  let kmeans := mkKMeans n_clusters (Some 42%Z) 10 in
  clusters <- fit_predict kmeans X ;;
  s <- column df "boat_issue" ;;
  d <- get_frame df ;;
  d <- lift (loc_setitem_mask d (notna_mask s) "ai_category" clusters) ;;
  put_frame df d ;;
  ret df.

(** [plot_top_issues(df)] *)
Definition plot_top_issues (df : frame_ref) : M unit :=
  s <- column df "boat_issue_class" ;;
  let counts := head 10 (value_counts s) in
  lift (plot_barh counts) ;;
  render (top_issues_chart counts).

(** [plot_top_boats(df)] *)
Definition plot_top_boats (df : frame_ref) : M unit :=
  s <- column df "boat_name" ;;
  let counts := head 10 (value_counts s) in
  lift (plot_barh counts) ;;
  render (top_boats_chart counts).

(** [plot_timeline(df)] *)
Definition plot_timeline (df : frame_ref) : M unit :=
  s <- column df "date" ;;
  keys <- lift (dt_to_period_M s) ;;
  let issues_over_time := groupby_size keys in
  lift (plot_line issues_over_time) ;;
  render (timeline_chart issues_over_time).

Definition entry_line (e : cell * nat) : string :=
  py_str (fst e) ++ ": " ++ PyStr.of_nat (snd e).

(** [for key, count in entries.items(): pdf.cell(200, 8, txt=f"{key}: {count}", ln=True)] *)
Fixpoint for_each_entry (entries : list (cell * nat)) (pdf : FPDF) : result FPDF :=
  match entries with
  | [] => Ok pdf
  | e :: rest =>
      match pdf_cell pdf 200 8 (entry_line e) true "" with
      | Ok pdf' => for_each_entry rest pdf'
      | Raise x => Raise x
      end
  end.

(** [export_pdf(df)] *)
Definition export_pdf (df : frame_ref) : M Document :=
  let pdf := FPDF_new in
  let pdf := set_auto_page_break pdf true 15 in
  let pdf := add_page pdf in
  let pdf := set_font pdf "Arial" 14 in
  pdf <- lift (pdf_cell pdf 200 10 "Boat Issues Report" true "C") ;;
  let pdf := set_font pdf "Arial" 12 in
  now <- datetime_now ;;
  pdf <- lift (pdf_cell pdf 200 10 ("Generated: " ++ strftime_minutes now) true "") ;;
  pdf <- lift (pdf_cell pdf 200 10 "Top Issues:" true "") ;;
  s <- column df "boat_issue_class" ;;
  let top_issues := head 10 (value_counts s) in
  pdf <- lift (for_each_entry top_issues pdf) ;;
  pdf <- lift (pdf_cell pdf 200 10 "Top Boats:" true "") ;;
  s <- column df "boat_name" ;;
  let top_boats := head 10 (value_counts s) in
  pdf <- lift (for_each_entry top_boats pdf) ;;
  let buf := pdf_output pdf in
  ret buf.

(** [st.file_uploader]: the widget, and the file the user gave if any *)
Definition st_file_uploader (label : string) (types : list string)
  : M (option Workbook) :=
  render (FileUploader label types) ;;
  fun w => (Ok (uploaded w), w).

(** [st.selectbox]: the widget, and the option the user chose, the
    first one unless chosen otherwise, none when there is no option *)
Definition st_selectbox (label : string) (options : list cell) : M (option cell) :=
  render (Selectbox label options) ;;
  fun w =>
    (Ok (match nth_error options (selected w) with
         | Some c => Some c
         | None => hd_error options
         end), w).

(** The script itself, top to bottom. *)
Definition app : M unit :=
  render (PageConfig "Boat Issues Demo" "wide") ;;
  render (Title "🚤 Boat Maintenance Insights Demo") ;;
  render (Text "This demo shows how AI can instantly turn messy maintenance logs into actionable intelligence.") ;;
  uploaded_file <- st_file_uploader "Upload a maintenance report Excel file" ["xlsx"] ;;
  df <- match uploaded_file with
        | Some f => load_data (Upload f)
        | None => load_data (Path DEFAULT_FILE)
        end ;;
  df <- ai_cluster_issues df 6 ;;
  render (Columns 2) ;;
  plot_top_issues df ;;
  plot_top_boats df ;;
  plot_timeline df ;;
  render (Subheader "🔍 AI-Categorized Issues") ;;
  s <- column df "ai_category" ;;
  options <- lift (sorted (unique (dropna s))) ;;
  category <- st_selectbox "Select AI category" options ;;
  s <- column df "ai_category" ;;
  d <- get_frame df ;;
  shown <- lift (getitem_list (filter_rows d (eq_mask s category))
                   ["boat_name"; "boat_issue_class"; "boat_issue"]) ;;
  render (Table shown) ;;
  pdf_file <- export_pdf df ;;
  render (DownloadButton "📄 Download PDF Report" pdf_file
            "boat_issues_report.pdf" "application/pdf").

(** The script from the charts on, once the table is loaded and
    clustered (lines 112 to 133). *)
Definition page_body (df : frame_ref) : M unit :=
  render (Columns 2) ;;
  plot_top_issues df ;;
  plot_top_boats df ;;
  plot_timeline df ;;
  render (Subheader "🔍 AI-Categorized Issues") ;;
  s <- column df "ai_category" ;;
  options <- lift (sorted (unique (dropna s))) ;;
  category <- st_selectbox "Select AI category" options ;;
  s <- column df "ai_category" ;;
  d <- get_frame df ;;
  shown <- lift (getitem_list (filter_rows d (eq_mask s category))
                   ["boat_name"; "boat_issue_class"; "boat_issue"]) ;;
  render (Table shown) ;;
  pdf_file <- export_pdf df ;;
  render (DownloadButton "📄 Download PDF Report" pdf_file
            "boat_issues_report.pdf" "application/pdf").

End App.

(* ===================================================================== *)
(** ** What the summaries are to satisfy *)
(* ===================================================================== *)

(** The order of a ranking over the values [vals] of a column: the larger
    count first, and among equal counts the value met first. *)
Definition ranked_before (vals : list cell) (e1 e2 : cell * nat) : Prop :=
  snd e2 < snd e1 \/
  (snd e1 = snd e2 /\
   first_index cell_eqb (fst e1) vals < first_index cell_eqb (fst e2) vals).


(** A table of the data model before the clustering step: [ai_category]
    is the column that step adds, so the table does not have it yet.  (A
    sheet that brings a column of that name of its own is outside the
    data model.) *)
Definition unlabelled (d : DataFrame) : Prop :=
  lookup_column "ai_category" (columns d) = None.

(** A stored category that is a float exactly equal to one of the
    integers 0, ..., K-1. *)
Definition float_label (K : nat) (c : cell) : Prop :=
  exists f k, c = Flt f /\ float_integer_value f = Some k /\ (0 <= k < Z.of_nat K)%Z.

(** Whether a date value falls into the month [p]. *)
Definition in_month (p : Period) (c : cell) : bool :=
  match c with
  | Time t => (to_period_M t =? p)%Z
  | _ => false
  end.

(** A timeline over the values of a date column: months in ascending
    order without repetition, each with the number of rows dated in it,
    every dated row in some month, and the counts adding up to the
    number of rows that have a date. *)
Record timeline_summary (vals : list cell) (buckets : list (Period * nat)) : Prop := {
  tl_ascending : StronglySorted (fun a b => (fst a < fst b)%Z) buckets;
  tl_counts : forall p n, In (p, n) buckets ->
    1 <= n /\ n = length (filter (in_month p) vals);
  tl_complete : forall t, In (Time t) vals -> In (to_period_M t) (map fst buckets);
  tl_total : list_sum (map snd buckets) = length (filter notna vals)
}.

(** Whether a date value lies in month [m] of year [y], read off the
    calendar fields of the timestamp. *)
Definition in_calendar_month (y m : Z) (c : cell) : bool :=
  match c with
  | Time t => ((year t =? y) && (month t =? m))%Z
  | _ => false
  end.

(** Every timestamp of a column has a month of the calendar. *)
Definition months_of_calendar (vals : list cell) : Prop :=
  Forall (fun c => forall t, c = Time t -> (1 <= month t <= 12)%Z) vals.

(** A timeline by calendar month: [months] are the (year, month) pairs of
    the buckets, in the order of the buckets.  The pairs stand in
    chronological order without repetition; the key of a bucket is the
    number of its month counted from January 1970, which is how a monthly
    period is stored; a bucket counts the records dated in its month of
    its year and is never empty; every dated record falls in a bucket;
    and the counts add up to the number of dated records. *)
Record calendar_timeline (vals : list cell) (buckets : list (Period * nat))
    (months : list (Z * Z)) : Prop := {
  ct_months : Forall (fun ym => (1 <= snd ym <= 12)%Z) months;
  ct_chronological :
    StronglySorted (fun a b => (fst a < fst b \/ (fst a = fst b /\ snd a < snd b))%Z) months;
  ct_buckets :
    Forall2 (fun b ym =>
               fst b = ((fst ym - 1970) * 12 + (snd ym - 1))%Z /\
               snd b = length (filter (in_calendar_month (fst ym) (snd ym)) vals) /\
               1 <= snd b)
      buckets months;
  ct_complete : forall t, In (Time t) vals -> In (year t, month t) months;
  ct_total : list_sum (map snd buckets) = length (filter notna vals)
}.

(* ===================================================================== *)
(** ** The loaded table as a function of the sheet *)
(* ===================================================================== *)

Definition and_then {A B} (r : result A) (k : A -> result B) : result B :=
  match r with
  | Ok a => k a
  | Raise e => Raise e
  end.

(** The table [load_data] builds from the sheet it has read, statement
    by statement as in [load_data]; [load_data_eq] below proves that this
    is the frame the function leaves in the store. *)
Definition normalized {L : Libraries} (raw : DataFrame) : result DataFrame :=
  let d := rename_columns normalize_label raw in
  and_then (getitem d "boat_name") (fun s =>
  and_then (str_method PyStr.strip s) (fun s =>
  and_then (str_method PyStr.lower s) (fun s =>
  let d := setitem d "boat_name" s in
  and_then (getitem d "boat_issue") (fun s =>
  and_then (str_method PyStr.strip s) (fun s =>
  let d := setitem d "boat_issue" s in
  and_then (getitem d "boat_issue_(class)") (fun s =>
  and_then (str_method PyStr.strip s) (fun s =>
  and_then (str_method PyStr.title s) (fun s =>
  let d := setitem d "boat_issue_class" s in
  and_then (getitem d "date") (fun s =>
  Ok (setitem d "date" (to_datetime_coerce parse_datetime s))))))))))).

(** The world in which the newest frame object holds [d]. *)
Definition with_new_frame {L : Libraries} (w : @World L) (d : DataFrame) : @World L :=
  with_frames (frames w ++ [d]) w.

(** The document [export_pdf] builds, as a function of the time and of
    the table; [export_pdf_eq] below proves that it is what the function
    returns. *)
Definition export_doc {L : Libraries} (now : Timestamp) (d : DataFrame) : result Document :=
  let pdf := set_font (add_page (set_auto_page_break FPDF_new true 15)) "Arial" 14 in
  and_then (pdf_cell pdf 200 10 "Boat Issues Report" true "C") (fun pdf =>
  let pdf := set_font pdf "Arial" 12 in
  and_then (pdf_cell pdf 200 10 ("Generated: " ++ strftime_minutes now) true "") (fun pdf =>
  and_then (pdf_cell pdf 200 10 "Top Issues:" true "") (fun pdf =>
  and_then (getitem d "boat_issue_class") (fun s =>
  and_then (for_each_entry (head 10 (value_counts s)) pdf) (fun pdf =>
  and_then (pdf_cell pdf 200 10 "Top Boats:" true "") (fun pdf =>
  and_then (getitem d "boat_name") (fun s =>
  and_then (for_each_entry (head 10 (value_counts s)) pdf) (fun pdf =>
  Ok (pdf_output pdf))))))))).







(* ===================================================================== *)
(** ** Two sample workbooks *)
(* ===================================================================== *)

Definition on_day (y m d : Z) : cell := Time (mkTimestamp y m d 0 0 0).

(** Eight maintenance reports.  Row 3 has an issue cell of blanks only,
    row 4 has no boat name and a date that cannot be read, row 5 has no
    issue text. *)
Definition fleet_sheet : DataFrame :=
  mkFrame 8
    [("Boat Name",
      mkSeries Object
        [Str "Alpha"; Str "alpha "; Str "Beta"; Str "Gamma"; NaN; Str "Delta";
         Str "Beta"; Str "Alpha"]);
     ("Boat Issue",
      mkSeries Object
        [Str "engine stalls"; Str "engine stall"; Str "leak"; Str "   ";
         Str "bilge pump failure"; NaN; Str "radio static"; Str "propeller damage"]);
     ("Boat Issue (Class)",
      mkSeries Object
        [Str "mechanical"; Str "Mechanical"; Str "hull"; Str "electrical";
         Str "Mechanical"; Str "hull"; Str "Electrical"; Str "Mechanical"]);
     ("Date",
      mkSeries Object
        [on_day 2023 1 5; on_day 2023 2 10; on_day 2023 1 20; on_day 2023 3 1;
         Str "soon"; on_day 2023 3 15; on_day 2023 2 11; on_day 2023 3 20])].

(** The three reports of the specification's scenario. *)
Definition small_sheet : DataFrame :=
  mkFrame 3
    [("Boat Name", mkSeries Object [Str "alpha"; Str "alpha"; Str "beta"]);
     ("Boat Issue", mkSeries Object [Str "engine stalls"; Str "engine stall"; Str "leak"]);
     ("Boat Issue (Class)", mkSeries Object [Str "Mechanical"; Str "Mechanical"; Str "Hull"]);
     ("Date", mkSeries Datetime64 [on_day 2023 1 5; on_day 2023 2 10; on_day 2023 1 20])].

(** The sample table with a column of categories of its own, as whole
    numbers. *)
Definition labelled_sheet : DataFrame :=
  mkFrame 8
    (columns fleet_sheet ++
     [("AI Category",
       mkSeries Int64 [Int 9; Int 9; Int 9; Int 9; Int 9; Int 9; Int 9; Int 9])]).



(** A workbook with the four columns and no record. *)
Definition empty_sheet : DataFrame :=
  mkFrame 0
    [("Boat Name", mkSeries Object []);
     ("Boat Issue", mkSeries Object []);
     ("Boat Issue (Class)", mkSeries Object []);
     ("Date", mkSeries Object [])].

(** A fresh session in which the user has uploaded [sheet]; [g] is the
    state of the process-wide random generator. *)
Definition session (sheet : DataFrame) (g : Z) : @World toy_libraries :=
  mkWorld (L := toy_libraries) [] [] (mkTimestamp 2024 3 7 9 5 0) [] g
    (Some (Sheet sheet)) 0.

(** The session after [load_data] has run on the upload. *)
Definition loaded (sheet : DataFrame) (g : Z) : @World toy_libraries :=
  snd (load_data (Upload (Sheet sheet)) (session sheet g)).

(** What the page shows before any data is read, and the file the
    script then loads. *)
Definition page_header : list Widget :=
  [PageConfig "Boat Issues Demo" "wide";
   Title "🚤 Boat Maintenance Insights Demo";
   Text "This demo shows how AI can instantly turn messy maintenance logs into actionable intelligence.";
   FileUploader "Upload a maintenance report Excel file" ["xlsx"]].

Definition chosen_file {L : Libraries} (w : @World L) : FileSource :=
  match uploaded w with
  | Some f => Upload f
  | None => Path DEFAULT_FILE
  end.

(* ===================================================================== *)
(** * Facts about the model *)
(* ===================================================================== *)

(** ** Counting and sorting *)

Section CountingFacts.
Variable K : Type.
Variable keqb : K -> K -> bool.
Hypothesis keqb_eq : forall a b, keqb a b = true <-> a = b.

Lemma keqb_refl : forall a, keqb a a = true.
Proof. intro a. apply keqb_eq. reflexivity. Qed.

Lemma keqb_neq : forall a b, keqb a b = false <-> a <> b.
Proof.
  intros a b. split.
  - intros H E. apply keqb_eq in E. congruence.
  - intro H. destruct (keqb a b) eqn:E; [apply keqb_eq in E; contradiction | reflexivity].
Qed.

Lemma count_table_snoc : forall l x,
  count_table keqb (l ++ [x]) = bump keqb x (count_table keqb l).
Proof. intros l x. unfold count_table. rewrite fold_left_app. reflexivity. Qed.

Lemma count_of_bump : forall k x tbl,
  count_of keqb k (bump keqb x tbl) =
  if keqb x k then S (count_of keqb k tbl) else count_of keqb k tbl.
Proof.
  intros k x tbl. induction tbl as [|[k' n] rest IH]; simpl.
  - destruct (keqb x k); reflexivity.
  - destruct (keqb k' x) eqn:E1; simpl.
    + apply keqb_eq in E1. subst k'. destruct (keqb x k); reflexivity.
    + destruct (keqb k' k) eqn:E2.
      * apply keqb_eq in E2. subst k'.
        destruct (keqb x k) eqn:E3; [|reflexivity].
        apply keqb_eq in E3. subst x. rewrite keqb_refl in E1. discriminate.
      * exact IH.
Qed.

Lemma occurrences_snoc : forall k l x,
  occurrences keqb k (l ++ [x]) =
  if keqb x k then S (occurrences keqb k l) else occurrences keqb k l.
Proof.
  intros k l x. unfold occurrences. rewrite filter_app, length_app. simpl.
  destruct (keqb k x) eqn:E.
  - apply keqb_eq in E. subst x. rewrite keqb_refl. simpl. lia.
  - destruct (keqb x k) eqn:E'.
    + apply keqb_eq in E'. subst x. rewrite keqb_refl in E. discriminate.
    + simpl. lia.
Qed.

(** The table gives every key the number of its occurrences. *)
Lemma count_of_count_table : forall k l,
  count_of keqb k (count_table keqb l) = occurrences keqb k l.
Proof.
  intros k l. induction l as [|x l IH] using rev_ind.
  - reflexivity.
  - rewrite count_table_snoc, count_of_bump, occurrences_snoc, IH. reflexivity.
Qed.

Lemma keys_bump : forall x tbl,
  map fst (bump keqb x tbl) =
  if existsb (fun k => keqb k x) (map fst tbl) then map fst tbl
  else map fst tbl ++ [x].
Proof.
  intros x tbl. induction tbl as [|[k' n] rest IH]; simpl.
  - reflexivity.
  - destruct (keqb k' x) eqn:E; simpl.
    + reflexivity.
    + rewrite IH. destruct (existsb _ _); reflexivity.
Qed.

Lemma existsb_keqb_In : forall x ks,
  existsb (fun k => keqb k x) ks = true <-> In x ks.
Proof.
  intros x ks. rewrite existsb_exists. split.
  - intros (k & Hin & E). apply keqb_eq in E. subst. exact Hin.
  - intro Hin. exists x. split; [exact Hin | apply keqb_refl].
Qed.

Lemma keys_count_table : forall k l,
  In k (map fst (count_table keqb l)) <-> In k l.
Proof.
  intros k l. induction l as [|x l IH] using rev_ind.
  - simpl. tauto.
  - rewrite count_table_snoc, keys_bump.
    destruct (existsb _ _) eqn:E.
    + apply existsb_keqb_In in E. rewrite in_app_iff, IH. simpl.
      split; [tauto|]. intros [H|[H|[]]]; [exact H|]. subst. apply IH, E.
    + rewrite !in_app_iff, IH. tauto.
Qed.

Lemma NoDup_keys_count_table : forall l, NoDup (map fst (count_table keqb l)).
Proof.
  intro l. induction l as [|x l IH] using rev_ind.
  - constructor.
  - rewrite count_table_snoc, keys_bump.
    destruct (existsb _ _) eqn:E; [exact IH|].
    apply NoDup_app; [exact IH | repeat constructor; intros [] | ].
    intros k Hk [Hx|[]]. subst k.
    apply existsb_keqb_In in Hk. congruence.
Qed.

Lemma count_of_In : forall k n tbl,
  NoDup (map fst tbl) -> In (k, n) tbl -> count_of keqb k tbl = n.
Proof.
  intros k n tbl. induction tbl as [|[k' n'] rest IH]; simpl; intros ND Hin.
  - contradiction.
  - inversion ND as [|? ? Hnot ND']; subst. destruct Hin as [E|Hin].
    + inversion E; subst. rewrite keqb_refl. reflexivity.
    + destruct (keqb k' k) eqn:E.
      * apply keqb_eq in E. subst k'. exfalso. apply Hnot.
        change k with (fst (k, n)). apply in_map. exact Hin.
      * apply IH; assumption.
Qed.

Lemma first_index_snoc_In : forall k l x,
  In k l -> first_index keqb k (l ++ [x]) = first_index keqb k l.
Proof.
  intros k l x. induction l as [|y l IH]; simpl; intro Hin.
  - contradiction.
  - destruct (keqb y k) eqn:E; [reflexivity|].
    destruct Hin as [H|H]; [subst; rewrite keqb_refl in E; discriminate|].
    rewrite IH; auto.
Qed.

Lemma first_index_lt_In : forall k l, In k l -> first_index keqb k l < length l.
Proof.
  intros k l. induction l as [|y l IH]; simpl; intro Hin.
  - contradiction.
  - destruct (keqb y k) eqn:E; [lia|].
    destruct Hin as [H|H]; [subst; rewrite keqb_refl in E; discriminate|].
    specialize (IH H). lia.
Qed.

Lemma first_index_snoc_new : forall k l,
  ~ In k l -> first_index keqb k (l ++ [k]) = length l.
Proof.
  intros k l. induction l as [|y l IH]; simpl; intro Hnot.
  - rewrite keqb_refl. reflexivity.
  - destruct (keqb y k) eqn:E.
    + apply keqb_eq in E. subst. exfalso. apply Hnot. left. reflexivity.
    + rewrite IH; [reflexivity|]. intro H. apply Hnot. right. exact H.
Qed.

(** The keys of the table stand in the order of their first
    occurrence. *)
Lemma count_table_first_seen : forall l,
  StronglySorted (fun a b => first_index keqb a l < first_index keqb b l)
    (map fst (count_table keqb l)).
Proof.
  intro l. induction l as [|x l IH] using rev_ind.
  - constructor.
  - assert (Hold : StronglySorted
              (fun a b => first_index keqb a (l ++ [x]) < first_index keqb b (l ++ [x]))
              (map fst (count_table keqb l))).
    { assert (Hin : forall k, In k (map fst (count_table keqb l)) -> In k l)
        by (intros k Hk; apply keys_count_table; exact Hk).
      revert IH Hin. generalize (map fst (count_table keqb l)) as ks.
      intros ks SS. induction SS as [|a ks SS IHs Hall]; intro Hin.
      - constructor.
      - constructor.
        + apply IHs. intros k Hk. apply Hin. right. exact Hk.
        + rewrite Forall_forall in *. intros b Hb.
          rewrite !first_index_snoc_In.
          * apply Hall, Hb.
          * apply Hin. right. exact Hb.
          * apply Hin. left. reflexivity. }
    rewrite count_table_snoc, keys_bump.
    destruct (existsb _ _) eqn:E; [exact Hold|].
    assert (Hx : ~ In x l).
    { intro H. apply keys_count_table in H. apply existsb_keqb_In in H. congruence. }
    assert (Hin : forall k, In k (map fst (count_table keqb l)) -> In k l)
      by (intros k Hk; apply keys_count_table; exact Hk).
    revert Hold Hin. generalize (map fst (count_table keqb l)) as ks.
    intros ks SS. induction SS as [|a ks SS IHs Hall]; intro Hin; simpl.
    + repeat constructor.
    + constructor.
      * apply IHs. intros k Hk. apply Hin. right. exact Hk.
      * apply Forall_app. split; [exact Hall|]. constructor; [|constructor].
        rewrite first_index_snoc_In by (apply Hin; left; reflexivity).
        rewrite first_index_snoc_new by exact Hx.
        apply first_index_lt_In. apply Hin. left. reflexivity.
Qed.

Lemma count_table_positive : forall l,
  Forall (fun e => 1 <= snd e) (count_table keqb l).
Proof.
  intro l. induction l as [|x l IH] using rev_ind.
  - constructor.
  - rewrite count_table_snoc. revert IH. generalize (count_table keqb l) as tbl.
    induction tbl as [|[k n] rest IHt]; simpl; intro H.
    + repeat constructor.
    + inversion H; subst. destruct (keqb k x); constructor; simpl in *; auto; lia.
Qed.

Lemma sum_bump : forall x tbl,
  list_sum (map snd (bump keqb x tbl)) = S (list_sum (map snd tbl)).
Proof.
  intros x tbl. induction tbl as [|[k n] rest IH]; simpl.
  - reflexivity.
  - destruct (keqb k x); simpl; [lia | rewrite IH; lia].
Qed.

(** The counts of the table add up to the number of values counted. *)
Lemma sum_count_table : forall l,
  list_sum (map snd (count_table keqb l)) = length l.
Proof.
  intro l. induction l as [|x l IH] using rev_ind.
  - reflexivity.
  - rewrite count_table_snoc, sum_bump, IH, length_app. simpl. lia.
Qed.
End CountingFacts.

Section SortingFacts.
Variable K : Type.

Lemma insert_desc_perm : forall (e : K * nat) l,
  Permutation (insert_desc e l) (e :: l).
Proof.
  intros e l. induction l as [|h t IH]; simpl.
  - apply Permutation_refl.
  - destruct (Nat.leb (snd h) (snd e)).
    + apply Permutation_refl.
    + eapply perm_trans; [apply perm_skip, IH | apply perm_swap].
Qed.

Lemma sort_desc_perm : forall l : list (K * nat), Permutation (sort_desc l) l.
Proof.
  induction l as [|e t IH]; simpl.
  - constructor.
  - eapply perm_trans; [apply insert_desc_perm | apply perm_skip, IH].
Qed.

Lemma insert_rank_perm : forall (e : nat * (K * nat)) l,
  Permutation (insert_rank e l) (e :: l).
Proof.
  intros e l. induction l as [|h t IH]; simpl.
  - apply Permutation_refl.
  - destruct (Nat.leb (fst e) (fst h)).
    + apply Permutation_refl.
    + eapply perm_trans; [apply perm_skip, IH | apply perm_swap].
Qed.

Lemma map_snd_combine : forall (A B : Type) (ks : list A) (l : list B),
  length ks = length l -> map snd (combine ks l) = l.
Proof.
  intros A B ks. induction ks as [|k ks IH]; intros [|x l] H; simpl in *;
    try discriminate; [reflexivity|].
  f_equal. apply IH. lia.
Qed.

(** Whatever the ranks, arranging a table keeps its entries. *)
Lemma arrange_perm : forall rank (tbl : list (K * nat)),
  Permutation (arrange rank tbl) tbl.
Proof.
  intros rank tbl. unfold arrange.
  set (pairs := combine (map rank (seq 0 (length tbl))) tbl).
  assert (Hp : Permutation (fold_right (@insert_rank K) [] pairs) pairs).
  { induction pairs as [|e t IH]; simpl.
    - constructor.
    - eapply perm_trans; [apply insert_rank_perm | apply perm_skip, IH]. }
  eapply perm_trans; [apply Permutation_map, Hp|].
  unfold pairs. rewrite map_snd_combine; [apply Permutation_refl|].
  rewrite length_map, length_seq. reflexivity.
Qed.

(** With all ranks equal, as for a stable sort, the table stays as it
    is. *)
Lemma arrange_stable : forall (tbl : list (K * nat)),
  arrange (fun _ => 0) tbl = tbl.
Proof.
  intro tbl. unfold arrange.
  assert (H : forall ks : list nat, Forall (fun k => k = 0) ks ->
            forall l : list (K * nat),
            fold_right (@insert_rank K) [] (combine ks l) = combine ks l).
  { intros ks Hks. induction Hks as [|k ks Hk Hks IH]; intros [|x l]; simpl;
      try reflexivity.
    rewrite IH. subst k. destruct (combine ks l) as [|h t]; reflexivity. }
  rewrite H.
  - apply map_snd_combine. rewrite length_map, length_seq. reflexivity.
  - rewrite Forall_forall. intros k Hk. apply in_map_iff in Hk.
    destruct Hk as (i & Hi & _). symmetry. exact Hi.
Qed.

(** [before] is the order in which the entries stand before sorting;
    after sorting a larger count comes first and equal counts keep
    that order. *)
Variable before : K * nat -> K * nat -> Prop.



End SortingFacts.

Lemma StronglySorted_map_fst : forall (K V : Type) (R : K -> K -> Prop) (l : list (K * V)),
  StronglySorted R (map fst l) ->
  StronglySorted (fun a b => R (fst a) (fst b)) l.
Proof.
  intros K V R l. induction l as [|a l IH]; simpl; intro SS.
  - constructor.
  - inversion SS as [|? ? SS' Hall]; subst. constructor; [apply IH, SS'|].
    rewrite Forall_forall in *. intros b Hb. apply Hall. apply in_map. exact Hb.
Qed.




Lemma insert_asc_perm : forall e l, Permutation (insert_asc e l) (e :: l).
Proof.
  intros e l. induction l as [|h t IH]; simpl.
  - apply Permutation_refl.
  - destruct (Z.leb _ _).
    + apply Permutation_refl.
    + eapply perm_trans; [apply perm_skip, IH | apply perm_swap].
Qed.

Lemma sort_index_perm : forall l, Permutation (sort_index l) l.
Proof.
  induction l as [|e t IH]; simpl.
  - constructor.
  - eapply perm_trans; [apply insert_asc_perm | apply perm_skip, IH].
Qed.

Lemma insert_asc_sorted : forall e l,
  StronglySorted (fun a b => (fst a <= fst b)%Z) l ->
  StronglySorted (fun a b => (fst a <= fst b)%Z) (insert_asc e l).
Proof.
  intros e l. induction l as [|h t IH]; simpl; intro SS.
  - repeat constructor.
  - inversion SS as [|? ? SSt Hh]; subst.
    destruct (Z.leb _ _) eqn:E.
    + apply Z.leb_le in E. constructor; [exact SS|].
      constructor; [exact E|].
      rewrite Forall_forall in *. intros y Hy. specialize (Hh y Hy). simpl in *. lia.
    + apply Z.leb_gt in E. constructor; [apply IH, SSt|].
      rewrite Forall_forall in *. intros y Hy.
      apply (Permutation_in _ (insert_asc_perm e t)) in Hy.
      destruct Hy as [Hy|Hy]; [subst y; lia | apply Hh, Hy].
Qed.

Lemma sort_index_sorted : forall l,
  StronglySorted (fun a b => (fst a <= fst b)%Z) (sort_index l).
Proof.
  induction l as [|e t IH]; simpl.
  - constructor.
  - apply insert_asc_sorted, IH.
Qed.

(** Sorted keys without repetition ascend strictly. *)
Lemma sorted_NoDup_strict : forall l : list (Period * nat),
  StronglySorted (fun a b => (fst a <= fst b)%Z) l ->
  NoDup (map fst l) ->
  StronglySorted (fun a b => (fst a < fst b)%Z) l.
Proof.
  intros l SS. induction SS as [|a l SS IH Hall]; simpl; intro ND.
  - constructor.
  - inversion ND as [|? ? Hnot ND']; subst. constructor; [apply IH, ND'|].
    rewrite Forall_forall in *. intros b Hb. specialize (Hall b Hb).
    assert (fst a <> fst b) by (intro E; apply Hnot; rewrite E; apply in_map, Hb).
    lia.
Qed.

Lemma list_sum_perm : forall l1 l2, Permutation l1 l2 -> list_sum l1 = list_sum l2.
Proof.
  intros l1 l2 P. induction P; simpl; lia.
Qed.

(** ** Equality of stored values *)

Lemma timestamp_eqb_eq : forall a b, timestamp_eqb a b = true <-> a = b.
Proof.
  intros [y1 m1 d1 h1 mi1 s1] [y2 m2 d2 h2 mi2 s2]. unfold timestamp_eqb. simpl.
  rewrite !andb_true_iff, !Z.eqb_eq. split.
  - intros [[[[[? ?] ?] ?] ?] ?]. congruence.
  - intro E. inversion E. tauto.
Qed.

Lemma spec_float_eqb_eq : forall a b, spec_float_eqb a b = true <-> a = b.
Proof.
  intros [s|s| |s m e] [s'|s'| |s' m' e']; simpl;
    try (split; [discriminate | intro E; inversion E]);
    try (rewrite Bool.eqb_true_iff; split; [congruence | intro E; inversion E; reflexivity]).
  - tauto.
  - rewrite !andb_true_iff, Bool.eqb_true_iff, Pos.eqb_eq, Z.eqb_eq. split.
    + intros [[? ?] ?]. congruence.
    + intro E. inversion E. tauto.
Qed.

Lemma cell_eqb_eq : forall a b, cell_eqb a b = true <-> a = b.
Proof.
  intros [s|z|f|t|] [s'|z'|f'|t'|]; simpl;
    try (split; [discriminate | intro E; inversion E]).
  - rewrite String.eqb_eq. split; [congruence | intro E; inversion E; reflexivity].
  - rewrite Z.eqb_eq. split; [congruence | intro E; inversion E; reflexivity].
  - rewrite spec_float_eqb_eq. split; [congruence | intro E; inversion E; reflexivity].
  - rewrite timestamp_eqb_eq. split; [congruence | intro E; inversion E; reflexivity].
  - tauto.
Qed.


(** ** [value_counts] *)


Lemma first_index_dropna : forall a b vals,
  notna a = true -> notna b = true ->
  first_index cell_eqb a (filter notna vals) < first_index cell_eqb b (filter notna vals) ->
  first_index cell_eqb a vals < first_index cell_eqb b vals.
Proof.
  intros a b vals Ha Hb. induction vals as [|x t IH]; simpl; intro H.
  - exact H.
  - destruct (notna x) eqn:Ex; simpl in H.
    + destruct (cell_eqb x a), (cell_eqb x b); lia.
    + destruct (cell_eqb x a) eqn:Ea; [apply cell_eqb_eq in Ea; congruence|].
      destruct (cell_eqb x b) eqn:Eb; [apply cell_eqb_eq in Eb; congruence|].
      apply -> Nat.succ_lt_mono. apply IH, H.
Qed.


(** [value_counts] holds the entries of the count table. *)
Lemma value_counts_perm : forall (L : Libraries) (s : Series),
  Permutation (value_counts s) (count_table cell_eqb (filter notna (values s))).
Proof.
  intros L s. unfold value_counts.
  eapply perm_trans; [apply sort_desc_perm | apply arrange_perm].
Qed.


(** ** [groupby(...).size()] over months *)

Lemma Z_eqb_eq' : forall a b : Z, (a =? b)%Z = true <-> a = b.
Proof. exact Z.eqb_eq. Qed.

Lemma occurrences_present_keys : forall p vals,
  occurrences Z.eqb p (present_keys (map period_key vals)) =
  length (filter (in_month p) vals).
Proof.
  intros p vals. unfold occurrences. induction vals as [|c t IH]; simpl.
  - reflexivity.
  - destruct c; simpl; try exact IH.
    rewrite (Z.eqb_sym p). destruct (Z.eqb _ p); simpl; rewrite IH; reflexivity.
Qed.

Lemma In_present_keys : forall t vals,
  In (Time t) vals -> In (to_period_M t) (present_keys (map period_key vals)).
Proof.
  intros t vals. induction vals as [|c rest IH]; simpl; intro H.
  - contradiction.
  - destruct H as [E|H].
    + subst c. simpl. left. reflexivity.
    + destruct c; simpl; auto.
Qed.

Lemma length_present_keys : forall vals,
  forallb (fun c => match c with Time _ | NaT => true | _ => false end) vals = true ->
  length (present_keys (map period_key vals)) = length (filter notna vals).
Proof.
  induction vals as [|c t IH]; simpl; intro H.
  - reflexivity.
  - apply andb_true_iff in H. destruct H as [Hc Ht].
    destruct c; try discriminate; simpl; rewrite (IH Ht); reflexivity.
Qed.

Lemma dt_to_period_M_Ok : forall s keys,
  dt_to_period_M s = Ok keys ->
  keys = map period_key (values s) /\
  forallb (fun c => match c with Time _ | NaT => true | _ => false end) (values s) = true.
Proof.
  intros s keys. unfold dt_to_period_M, is_datetimelike.
  destruct (s_dtype s); try discriminate.
  destruct (forallb _ (values s)) eqn:E; [|discriminate].
  intro H. inversion H. split; reflexivity.
Qed.

(** The month counts of a datetime column are a timeline of it. *)
Lemma groupby_size_summary : forall s keys,
  dt_to_period_M s = Ok keys ->
  timeline_summary (values s) (groupby_size keys).
Proof.
  intros s keys H. apply dt_to_period_M_Ok in H. destruct H as [-> Hall].
  unfold groupby_size.
  set (pk := present_keys (map period_key (values s))).
  set (tbl := count_table Z.eqb pk).
  assert (Hperm : Permutation (sort_index tbl) tbl) by apply sort_index_perm.
  assert (NDt : NoDup (map fst tbl)) by (apply (NoDup_keys_count_table _ Z_eqb_eq')).
  constructor.
  - apply sorted_NoDup_strict; [apply sort_index_sorted|].
    eapply Permutation_NoDup; [|exact NDt].
    apply Permutation_map, Permutation_sym, Hperm.
  - intros p n Hin. apply (Permutation_in _ Hperm) in Hin. split.
    + pose proof (count_table_positive Z.eqb pk) as Hpos.
      rewrite Forall_forall in Hpos. apply (Hpos _ Hin).
    + rewrite <- occurrences_present_keys.
      rewrite <- (count_of_count_table _ Z_eqb_eq').
      symmetry. apply (count_of_In _ Z_eqb_eq'); assumption.
  - intros t Ht.
    apply (Permutation_in _ (Permutation_map fst (Permutation_sym Hperm))).
    apply (keys_count_table _ Z_eqb_eq'). apply In_present_keys, Ht.
  - rewrite (list_sum_perm (Permutation_map snd Hperm)).
    unfold tbl. rewrite sum_count_table. apply length_present_keys, Hall.
Qed.

(** Two dates fall into the same month bucket exactly when they agree in
    year and month, and the buckets stand in calendar order. *)
Lemma to_period_M_same_month : forall t1 t2,
  (1 <= month t1 <= 12)%Z -> (1 <= month t2 <= 12)%Z ->
  (to_period_M t1 = to_period_M t2 <-> year t1 = year t2 /\ month t1 = month t2).
Proof. intros t1 t2 H1 H2. unfold to_period_M. lia. Qed.

Lemma to_period_M_chronological : forall t1 t2,
  (1 <= month t1 <= 12)%Z -> (1 <= month t2 <= 12)%Z ->
  ((to_period_M t1 < to_period_M t2)%Z <->
   (year t1 < year t2)%Z \/ (year t1 = year t2 /\ (month t1 < month t2)%Z)).
Proof. intros t1 t2 H1 H2. unfold to_period_M. lia. Qed.

(** ** Integers as float64 *)

Unset Implicit Arguments.

Lemma shr_1_nonneg : forall mrs, (0 <= shr_m mrs)%Z -> (0 <= shr_m (shr_1 mrs))%Z.
Proof.
  intros [m r s] H. simpl in *. destruct m as [|[p|p|]|p]; simpl; lia.
Qed.

Lemma iter_pos_shr_1_nonneg : forall p mrs,
  (0 <= shr_m mrs)%Z -> (0 <= shr_m (iter_pos shr_1 p mrs))%Z.
Proof.
  induction p as [p IH|p IH|]; intros mrs H; simpl.
  - apply IH, IH, shr_1_nonneg, H.
  - apply IH, IH, H.
  - apply shr_1_nonneg, H.
Qed.

Lemma shr_record_of_loc_m : forall m l, shr_m (shr_record_of_loc m l) = m.
Proof. intros m [|[ | | ]]; reflexivity. Qed.

Lemma shr_fexp_nonneg : forall prec emax m e l,
  (0 <= m)%Z -> (0 <= shr_m (fst (shr_fexp prec emax m e l)))%Z.
Proof.
  intros prec emax m e l H. unfold shr_fexp, shr.
  destruct (_ - e)%Z; simpl; try (rewrite shr_record_of_loc_m; exact H).
  apply iter_pos_shr_1_nonneg. rewrite shr_record_of_loc_m. exact H.
Qed.

Lemma round_nearest_even_nonneg : forall m l,
  (0 <= m)%Z -> (0 <= round_nearest_even m l)%Z.
Proof.
  intros m [|[ | | ]] H; simpl; try lia. destruct (Z.even m); lia.
Qed.

Lemma binary_round_aux_not_nan : forall prec emax sx mx ex lx,
  (0 <= mx)%Z -> binary_round_aux prec emax sx mx ex lx <> S754_nan.
Proof.
  intros prec emax sx mx ex lx H. unfold binary_round_aux.
  pose proof (shr_fexp_nonneg prec emax mx ex lx H) as H1.
  destruct (shr_fexp prec emax mx ex lx) as [mrs' e'] eqn:E1. simpl in H1.
  pose proof (shr_fexp_nonneg prec emax _ e' loc_Exact
                (round_nearest_even_nonneg _ (loc_of_shr_record mrs') H1)) as H2.
  destruct (shr_fexp prec emax _ e' loc_Exact) as [mrs'' e''] eqn:E2. simpl in H2.
  destruct (shr_m mrs''); try lia; try discriminate.
  destruct (Z.leb _ _); discriminate.
Qed.

(** A label converted to float64 is never the missing marker. *)
Lemma float64_of_Z_not_nan : forall z, float64_of_Z z <> S754_nan.
Proof.
  intro z. unfold float64_of_Z, binary_normalize, binary_round.
  destruct z as [|p|p]; [discriminate| |];
    destruct (shl_align _ _ _) as [mz ez]; apply binary_round_aux_not_nan; lia.
Qed.

Lemma notna_float64_of_Z : forall z, notna (Flt (float64_of_Z z)) = true.
Proof.
  intro z. pose proof (float64_of_Z_not_nan z) as H. unfold notna. simpl.
  destruct (float64_of_Z z); try reflexivity. contradiction.
Qed.

Lemma digits2_pos_bounds : forall p,
  (2 ^ (Zpos (digits2_pos p) - 1) <= Zpos p < 2 ^ Zpos (digits2_pos p))%Z.
Proof.
  induction p as [p IH|p IH|]; simpl digits2_pos.
  - rewrite Pos2Z.inj_succ. replace (Z.succ (Zpos (digits2_pos p)) - 1)%Z
      with (Zpos (digits2_pos p)) by lia.
    rewrite Z.pow_succ_r by lia.
    replace (2 ^ Zpos (digits2_pos p))%Z
      with (2 * 2 ^ (Zpos (digits2_pos p) - 1))%Z in *
      by (rewrite <- Z.pow_succ_r by lia; f_equal; lia).
    rewrite Pos2Z.inj_xI. lia.
  - rewrite Pos2Z.inj_succ. replace (Z.succ (Zpos (digits2_pos p)) - 1)%Z
      with (Zpos (digits2_pos p)) by lia.
    rewrite Z.pow_succ_r by lia.
    replace (2 ^ Zpos (digits2_pos p))%Z
      with (2 * 2 ^ (Zpos (digits2_pos p) - 1))%Z in *
      by (rewrite <- Z.pow_succ_r by lia; f_equal; lia).
    rewrite (Pos2Z.inj_xO p). lia.
  - simpl. lia.
Qed.

Lemma digits2_pos_le_53 : forall p,
  (Zpos p < 2 ^ 53)%Z -> (Zpos (digits2_pos p) <= 53)%Z.
Proof.
  intros p H. destruct (digits2_pos_bounds p) as [Hlo _].
  destruct (Z.le_gt_cases (Zpos (digits2_pos p)) 53) as [Hle|Hgt]; [exact Hle|].
  exfalso. assert (2 ^ 53 <= 2 ^ (Zpos (digits2_pos p) - 1))%Z
    by (apply Z.pow_le_mono_r; lia).
  lia.
Qed.

Lemma iter_xO_value : forall k p, Zpos (Pos.iter xO p k) = (Zpos p * 2 ^ Zpos k)%Z.
Proof.
  intros k p. induction k as [|k IH] using Pos.peano_ind.
  - simpl. rewrite (Pos2Z.inj_xO p). lia.
  - rewrite Pos.iter_succ, (Pos2Z.inj_xO (Pos.iter xO p k)), IH, Pos2Z.inj_succ, Z.pow_succ_r by lia. lia.
Qed.

Lemma iter_xO_digits : forall k p,
  digits2_pos (Pos.iter xO p k) = (digits2_pos p + k)%positive.
Proof.
  intros k p. induction k as [|k IH] using Pos.peano_ind.
  - simpl. lia.
  - rewrite Pos.iter_succ. simpl. rewrite IH. lia.
Qed.

(** A 53-bit mantissa with an exponent in range is stored as it is. *)
Lemma binary_round_aux_exact : forall m e,
  Zpos (digits2_pos m) = 53%Z -> (-1074 <= e <= 971)%Z ->
  binary_round_aux 53 1024 false (Zpos m) e loc_Exact = S754_finite false m e.
Proof.
  intros m e Hd He.
  assert (Hs : shr_fexp 53 1024 (Zpos m) e loc_Exact =
               (Build_shr_record (Zpos m) false false, e)).
  { unfold shr_fexp, fexp, emin, Zdigits2. rewrite Hd.
    replace (Z.max (53 + e - 53) (3 - 1024 - 53) - e)%Z with 0%Z by lia.
    reflexivity. }
  unfold binary_round_aux. rewrite Hs. simpl. rewrite Hs. simpl.
  replace (e <=? 971)%Z with true by (symmetry; apply Z.leb_le; lia).
  reflexivity.
Qed.

(** The float64 of a natural number below 2^53: the number shifted to a
    53-bit mantissa. *)
Lemma float64_of_Z_pos : forall p,
  (Zpos p < 2 ^ 53)%Z ->
  exists m e, float64_of_Z (Zpos p) = S754_finite false m e /\
              (e <= 0)%Z /\ Zpos m = (Zpos p * 2 ^ (- e))%Z.
Proof.
  intros p Hp. pose proof (digits2_pos_le_53 p Hp) as Hd.
  unfold float64_of_Z, binary_normalize, binary_round, shl_align.
  assert (Hf : fexp 53 1024 (Zpos (digits2_pos p) + 0) = (Zpos (digits2_pos p) - 53)%Z).
  { unfold fexp, emin. pose proof (Pos2Z.is_pos (digits2_pos p)). lia. }
  rewrite Hf.
  destruct (Zpos (digits2_pos p) - 53 - 0)%Z as [|k|k] eqn:Ek; try lia.
  - exists p, 0%Z. split; [|split; [lia | simpl; lia]].
    apply binary_round_aux_exact; lia.
  - exists (Pos.iter xO p k), (Zpos (digits2_pos p) - 53)%Z.
    split; [|split; [lia|]].
    + apply binary_round_aux_exact; [|lia].
      rewrite iter_xO_digits, Pos2Z.inj_add. lia.
    + rewrite iter_xO_value. f_equal. f_equal. lia.
Qed.

(** Below 2^53 the conversion loses nothing: the float of a label is
    exactly that integer. *)
Lemma float_integer_value_of_Z : forall z,
  (0 <= z < 2 ^ 53)%Z -> float_integer_value (float64_of_Z z) = Some z.
Proof.
  intros z Hz. destruct z as [|p|p]; [reflexivity| |lia].
  destruct (float64_of_Z_pos p) as (m & e & Ef & He & Hm); [lia|].
  rewrite Ef. unfold float_integer_value. destruct e as [|k|k]; try lia.
  - simpl in Hm. f_equal. lia.
  - change (- Zneg k)%Z with (Zpos k) in Hm. rewrite Hm.
    rewrite Z.mod_mul by (apply Z.pow_nonzero; lia). simpl Z.eqb.
    rewrite Z.div_mul by (apply Z.pow_nonzero; lia). reflexivity.
Qed.

(** ** Columns, masks and the frame store *)

Lemma lookup_assign_same : forall label s cols,
  lookup_column label (assign_column label s cols) = Some s.
Proof.
  intros label s cols. induction cols as [|[l s0] rest IH]; simpl.
  - rewrite String.eqb_refl. reflexivity.
  - destruct (String.eqb l label) eqn:E; simpl; rewrite E; [reflexivity | exact IH].
Qed.

Lemma lookup_assign_other : forall label label' s cols,
  label <> label' ->
  lookup_column label' (assign_column label s cols) = lookup_column label' cols.
Proof.
  intros label label' s cols Hne. induction cols as [|[l s0] rest IH]; simpl.
  - destruct (String.eqb label label') eqn:E; [apply String.eqb_eq in E; contradiction|].
    reflexivity.
  - destruct (String.eqb l label) eqn:E; simpl.
    + apply String.eqb_eq in E. subst l.
      destruct (String.eqb label label') eqn:E'; [|reflexivity].
      apply String.eqb_eq in E'. contradiction.
    + destruct (String.eqb l label'); [reflexivity | exact IH].
Qed.

Lemma scatter_length : forall mask vals old,
  length (scatter mask vals old) = length old.
Proof.
  induction mask as [|[|] ms IH]; intros vals old; destruct old as [|o os]; simpl;
    try reflexivity.
  - destruct vals; simpl; rewrite IH; reflexivity.
  - rewrite IH. reflexivity.
Qed.

(** Reading the selected rows back gives the values written, in order. *)
Lemma select_scatter : forall mask vals old,
  length old = length mask -> length vals = count_true mask ->
  select mask (scatter mask vals old) = vals.
Proof.
  unfold count_true.
  induction mask as [|[|] ms IH]; intros vals old Ho Hv; destruct old as [|o os];
    simpl in *; try discriminate.
  - destruct vals; [reflexivity | discriminate].
  - destruct vals as [|v vs]; [discriminate|]. simpl in *. f_equal. apply IH; lia.
  - apply IH; lia.
Qed.

(** The rows outside the mask keep what they held. *)
Lemma select_scatter_rest : forall mask vals old,
  select (map negb mask) (scatter mask vals old) = select (map negb mask) old.
Proof.
  induction mask as [|[|] ms IH]; intros vals old; destruct old as [|o os]; simpl;
    try reflexivity.
  - destruct vals; simpl; apply IH.
  - f_equal. apply IH.
Qed.

Lemma select_repeat : forall (c : cell) mask n,
  Forall (fun x => x = c) (select mask (repeat c n)).
Proof.
  intros c mask. induction mask as [|m ms IH]; intros n; destruct n; simpl;
    try constructor.
  destruct m; [constructor; [reflexivity|] |]; apply IH.
Qed.

(** Row by row: after labels have been written into a fresh NaN column
    under the mask of the non-missing values of [issues], a row holds a
    value exactly when its issue is not missing. *)
Lemma scatter_notna : forall issues vals,
  length vals = count_true (map notna issues) ->
  Forall (fun v => notna v = true) vals ->
  Forall2 (fun issue cat => notna cat = notna issue) issues
    (scatter (map notna issues) vals (repeat NaN (length issues))).
Proof.
  unfold count_true.
  induction issues as [|c t IH]; intros vals Hlen Hall; cbn [map length repeat scatter] in *.
  - constructor.
  - destruct (notna c) eqn:Ec; cbn [filter length] in Hlen.
    + destruct vals as [|v vs]; [discriminate|]. cbn [length] in Hlen.
      inversion Hall; subst. constructor; [congruence|]. apply IH; [lia | assumption].
    + constructor; [rewrite Ec; reflexivity|]. apply IH; assumption.
Qed.

Lemma nth_store_at : forall (A : Type) i (x d : A) (l : list A),
  i < length l -> nth i (store_at i x l) d = x.
Proof.
  intros A i x d l. revert i. induction l as [|h t IH]; intros i H; simpl in *.
  - lia.
  - destruct i; simpl; [reflexivity | apply IH; lia].
Qed.

Lemma store_at_snoc : forall (A : Type) (x y : A) (l : list A),
  store_at (length l) y (l ++ [x]) = l ++ [y].
Proof.
  intros A x y l. induction l as [|h t IH]; simpl; [reflexivity | rewrite IH; reflexivity].
Qed.

Lemma nth_snoc : forall (A : Type) (x d : A) (l : list A),
  nth (length l) (l ++ [x]) d = x.
Proof.
  intros A x d l. induction l as [|h t IH]; simpl; [reflexivity | exact IH].
Qed.

Lemma count_true_notna : forall vals,
  count_true (map notna vals) = length (filter notna vals).
Proof.
  unfold count_true. induction vals as [|c t IH]; simpl.
  - reflexivity.
  - destruct (notna c); simpl; rewrite IH; reflexivity.
Qed.

Section AppFacts.
Context {L : Libraries}.

Lemma getitem_valid_ref : forall (w : World) df label s,
  getitem (frame_at df w) label = Ok s -> df < length (frames w).
Proof.
  intros w df label s H. unfold frame_at in H.
  destruct (Nat.lt_ge_cases df (length (frames w))) as [Hlt|Hge]; [exact Hlt|].
  rewrite nth_overflow in H by exact Hge. discriminate.
Qed.

Lemma frame_at_store : forall (w : World) df d,
  df < length (frames w) ->
  frame_at df (with_frames (store_at df d (frames w)) w) = d.
Proof. intros w df d H. unfold frame_at. simpl. apply nth_store_at, H. Qed.

(** ** [ai_cluster_issues], unfolded *)

Lemma ai_cluster_issues_eq : forall df K (w : World),
  ai_cluster_issues df K w =
  match getitem (frame_at df w) "boat_issue" with
  | Raise e => (Raise e, w)
  | Ok s =>
      match tfidf_fit_transform "english" (filter notna (values s)) with
      | Raise e => (Raise e, w)
      | Ok X =>
          match fst (kmeans_fit_predict K 10 (RandomState_seed 42%Z) X) with
          | Raise e => (Raise e, w)
          | Ok clusters =>
              match loc_setitem_mask (frame_at df w) (notna_mask s)
                      "ai_category" clusters with
              | Raise e => (Raise e, w)
              | Ok d => (Ok df, with_frames (store_at df d (frames w)) w)
              end
          end
      end
  end.
Proof.
  intros df K w.
  unfold ai_cluster_issues, column, bind, get_frame, lift, fit_predict, put_frame, ret.
  simpl. destruct (getitem (frame_at df w) "boat_issue") as [s|e]; [|reflexivity].
  unfold tolist, dropna. simpl.
  destruct (tfidf_fit_transform _ _) as [X|e]; [|reflexivity].
  destruct (fst (kmeans_fit_predict _ _ _ X)) as [clusters|e]; [|reflexivity].
  destruct (loc_setitem_mask _ _ _ clusters) as [d|e]; reflexivity.
Qed.

Lemma loc_setitem_mask_new : forall d mask label labels d',
  lookup_column label (columns d) = None ->
  loc_setitem_mask d mask label labels = Ok d' ->
  length mask = nrows d /\ length labels = count_true mask /\
  d' = setitem d label
         (mkSeries Float64
            (scatter mask (map (fun z => Flt (float64_of_Z z)) labels)
               (repeat NaN (nrows d)))).
Proof.
  intros d mask label labels d' Hnew. unfold loc_setitem_mask.
  destruct (Nat.eqb (length mask) (nrows d)) eqn:E1; simpl; [|discriminate].
  destruct (Nat.eqb (length labels) (count_true mask)) eqn:E2; simpl; [|discriminate].
  rewrite Hnew. intro H. inversion H.
  apply Nat.eqb_eq in E1, E2. auto.
Qed.

(** What a successful run of the clustering step has done: the labels
    come from k-means, seeded with 42, over the TF-IDF matrix of the
    non-missing issue texts in table order, and they are written into a
    new float column of the same frame object under the mask of the
    non-missing issues. *)
Lemma ai_cluster_issues_Ok : forall df K (w w' : World) r,
  unlabelled (frame_at df w) ->
  ai_cluster_issues df K w = (Ok r, w') ->
  exists s X clusters,
    getitem (frame_at df w) "boat_issue" = Ok s /\
    tfidf_fit_transform "english" (filter notna (values s)) = Ok X /\
    fst (kmeans_fit_predict K 10 (RandomState_seed 42%Z) X) = Ok clusters /\
    length (values s) = nrows (frame_at df w) /\
    length clusters = length (filter notna (values s)) /\
    r = df /\
    frame_at df w' =
      setitem (frame_at df w) "ai_category"
        (mkSeries Float64
           (scatter (notna_mask s) (map (fun z => Flt (float64_of_Z z)) clusters)
              (repeat NaN (nrows (frame_at df w))))).
Proof.
  intros df K w w' r Hnew H. rewrite ai_cluster_issues_eq in H.
  destruct (getitem (frame_at df w) "boat_issue") as [s|e] eqn:Es; [|discriminate].
  destruct (tfidf_fit_transform _ _) as [X|e] eqn:EX; [|discriminate].
  destruct (fst (kmeans_fit_predict _ _ _ X)) as [clusters|e] eqn:Ec; [|discriminate].
  destruct (loc_setitem_mask _ _ _ clusters) as [d|e] eqn:Ed; [|discriminate].
  inversion H; subst. clear H.
  destruct (loc_setitem_mask_new _ _ _ _ _ Hnew Ed) as (Hm & Hl & ->).
  exists s, X, clusters. unfold notna_mask in *. rewrite length_map in Hm.
  rewrite count_true_notna in Hl.
  repeat split; try assumption; try reflexivity.
  apply frame_at_store. eapply getitem_valid_ref. exact Es.
Qed.

End AppFacts.

(* ===================================================================== *)
(** * The clustering step *)
(* ===================================================================== *)

Lemma scatter_Forall : forall (P : cell -> Prop) mask vals old,
  Forall P vals -> Forall P old -> Forall P (scatter mask vals old).
Proof.
  intros P. induction mask as [|[|] ms IH]; intros vals old Hv Ho;
    destruct old as [|o os]; simpl; try assumption.
  - inversion Ho; subst. destruct vals as [|v vs].
    + constructor; [assumption | apply IH; assumption].
    + inversion Hv; subst. constructor; [assumption | apply IH; assumption].
  - inversion Ho; subst. constructor; [assumption | apply IH; assumption].
Qed.

Lemma getitem_setitem_same : forall d label s,
  getitem (setitem d label s) label = Ok s.
Proof.
  intros d label s. unfold getitem, setitem. simpl.
  rewrite lookup_assign_same. reflexivity.
Qed.

Lemma getitem_setitem_other : forall d label label' s,
  label <> label' ->
  getitem (setitem d label s) label' = getitem d label'.
Proof.
  intros d label label' s Hne. unfold getitem, setitem. simpl.
  rewrite lookup_assign_other by exact Hne. reflexivity.
Qed.

(** C1, as the code has it.  After a successful clustering step on a
    table that had no [ai_category] column, a record has a category
    exactly when its [boat_issue] is not the missing marker.  An issue
    text that is empty after trimming is not missing, so such a record
    has a category too. *)
Theorem ai_category_defined_iff_issue_notna :
  forall (L : Libraries) (w w' : World) (df r : frame_ref) (K : nat),
    unlabelled (frame_at df w) ->
    ai_cluster_issues df K w = (Ok r, w') ->
    exists issues cats,
      getitem (frame_at r w') "boat_issue" = Ok issues /\
      getitem (frame_at r w') "ai_category" = Ok cats /\
      Forall2 (fun issue cat => notna cat = notna issue) (values issues) (values cats) /\
      Forall2 (fun issue cat => issue = Str "" -> notna cat = true)
        (values issues) (values cats).
Proof.
  intros L w w' df r K Hnew H.
  destruct (ai_cluster_issues_Ok df K w w' r Hnew H)
    as (s & X & clusters & Es & EX & Ec & Hrows & Hlen & -> & Ef).
  assert (HF : Forall2 (fun issue cat => notna cat = notna issue) (values s)
            (scatter (notna_mask s) (map (fun z => Flt (float64_of_Z z)) clusters)
               (repeat NaN (nrows (frame_at df w))))).
  { rewrite <- Hrows. apply scatter_notna.
    - rewrite length_map, count_true_notna. exact Hlen.
    - apply Forall_map. apply Forall_forall. intros z _. apply notna_float64_of_Z. }
  exists s. eexists. rewrite Ef.
  rewrite getitem_setitem_other by discriminate.
  rewrite getitem_setitem_same. repeat split; try reflexivity; try assumption.
  simpl. eapply Forall2_impl; [|exact HF].
  simpl. intros issue cat E ->. rewrite E. reflexivity.
Qed.

(** C1 as stated fails: row 3 of the sample table has an issue text of
    blanks, which trims to the empty string, and it has a category after
    the clustering step. *)
Lemma ai_category_given_to_blank_issue :
  exists w1 w2 cat,
    load_data (Upload (Sheet fleet_sheet)) (session fleet_sheet 0) = (Ok 0, w1) /\
    ai_cluster_issues 0 6 w1 = (Ok 0, w2) /\
    cell_at (frame_at 0 w2) "boat_issue" 3 = Some (Str "") /\
    cell_at (frame_at 0 w2) "ai_category" 3 = Some cat /\
    notna cat = true.
Proof.
  eexists. eexists. eexists.
  split; [vm_compute; reflexivity|].
  split; [vm_compute; reflexivity|].
  split; [vm_compute; reflexivity|].
  split; vm_compute; reflexivity.
Qed.

Lemma ai_category_defined_iff_issue_notna_witness :
  exists issues cats,
    getitem (frame_at 0 (snd (ai_cluster_issues 0 6 (loaded fleet_sheet 0))))
      "boat_issue" = Ok issues /\
    getitem (frame_at 0 (snd (ai_cluster_issues 0 6 (loaded fleet_sheet 0))))
      "ai_category" = Ok cats /\
    Forall2 (fun issue cat => notna cat = notna issue) (values issues) (values cats) /\
    Forall2 (fun issue cat => issue = Str "" -> notna cat = true)
      (values issues) (values cats).
Proof.
  apply (ai_category_defined_iff_issue_notna toy_libraries
           (loaded fleet_sheet 0) _ 0 0 6).
  - vm_compute. reflexivity.
  - vm_compute. reflexivity.
Defined.

(** C4, as the code has it.  When clustering succeeds on a table that
    had no [ai_category] column, the labels are those k-means computes
    over the non-missing issue texts taken in table order, each lies in
    [0, K), reading the categories of the records with a non-missing
    issue in table order gives exactly that label sequence, and the
    records with a missing issue hold the missing marker.  A record
    whose issue text is empty but present is among the labelled ones. *)
Theorem ai_category_labels_in_table_order :
  forall (L : Libraries), LibrariesSpec L ->
  forall (w w' : World) (df r : frame_ref) (K : nat),
    unlabelled (frame_at df w) ->
    ai_cluster_issues df K w = (Ok r, w') ->
    exists issues cats X clusters,
      getitem (frame_at df w) "boat_issue" = Ok issues /\
      getitem (frame_at r w') "boat_issue" = Ok issues /\
      getitem (frame_at r w') "ai_category" = Ok cats /\
      tfidf_fit_transform "english" (tolist (dropna issues)) = Ok X /\
      fst (kmeans_fit_predict K 10 (RandomState_seed 42%Z) X) = Ok clusters /\
      Forall (fun l => (0 <= l < Z.of_nat K)%Z) clusters /\
      length (values cats) = length (values issues) /\
      select (notna_mask issues) (values cats) =
        map (fun l => Flt (float64_of_Z l)) clusters /\
      Forall (fun c => c = NaN) (select (map negb (notna_mask issues)) (values cats)).
Proof.
  intros L HL w w' df r K Hnew H.
  destruct (ai_cluster_issues_Ok df K w w' r Hnew H)
    as (s & X & clusters & Es & EX & Ec & Hrows & Hlen & -> & Ef).
  exists s. eexists. exists X, clusters. rewrite Ef.
  rewrite getitem_setitem_other by discriminate.
  rewrite getitem_setitem_same.
  split; [exact Es|]. split; [exact Es|]. split; [reflexivity|].
  split; [exact EX|]. split; [exact Ec|].
  split; [apply (proj2 (kmeans_labels HL _ _ _ _ Ec))|].
  cbn [values]. split; [|split].
  - rewrite scatter_length, repeat_length. symmetry. exact Hrows.
  - apply select_scatter.
    + rewrite repeat_length. unfold notna_mask. rewrite length_map. symmetry. exact Hrows.
    + rewrite length_map. unfold notna_mask. rewrite count_true_notna. exact Hlen.
  - rewrite select_scatter_rest. apply select_repeat.
Qed.

(** C4 as stated fails in its last clause: the record of row 3, whose
    issue text is empty after trimming, holds a label of the range. *)
Lemma blank_issue_receives_label :
  exists l,
    cell_at (frame_at 0 (loaded fleet_sheet 0)) "boat_issue" 3 = Some (Str "") /\
    fst (ai_cluster_issues 0 6 (loaded fleet_sheet 0)) = Ok 0 /\
    cell_at (frame_at 0 (snd (ai_cluster_issues 0 6 (loaded fleet_sheet 0))))
      "ai_category" 3 = Some (Flt (float64_of_Z l)) /\
    (0 <= l < 6)%Z.
Proof. exists 0%Z. repeat split; vm_compute; try reflexivity; discriminate. Qed.

Lemma toy_libraries_spec : LibrariesSpec toy_libraries.
Proof.
  constructor.
  - intros sw docs X. simpl. unfold toy_tfidf.
    destruct (negb _); [discriminate|]. destruct (forallb _ docs); [discriminate|].
    intro H. inversion H. rewrite length_map. reflexivity.
  - intros k n r X Hlt. simpl in *. unfold toy_kmeans.
    destruct (Nat.eqb k 0); [eexists; reflexivity|].
    apply Nat.ltb_lt in Hlt. rewrite Hlt. eexists. reflexivity.
  - intros k n r X labels. simpl. unfold toy_kmeans.
    destruct (Nat.eqb k 0) eqn:Ek; [discriminate|].
    destruct (Nat.ltb (length X) k); [discriminate|].
    simpl. intro H. inversion H. split; [apply length_map|].
    apply Forall_map, Forall_forall. intros x _.
    apply Nat.eqb_neq in Ek.
    pose proof (Nat.mod_upper_bound (x + Z.to_nat r) k Ek). lia.
Qed.

Lemma ai_category_labels_in_table_order_witness :
  exists issues cats X clusters,
    getitem (frame_at 0 (loaded fleet_sheet 0)) "boat_issue" = Ok issues /\
    getitem (frame_at 0 (snd (ai_cluster_issues 0 6 (loaded fleet_sheet 0))))
      "boat_issue" = Ok issues /\
    getitem (frame_at 0 (snd (ai_cluster_issues 0 6 (loaded fleet_sheet 0))))
      "ai_category" = Ok cats /\
    @tfidf_fit_transform toy_libraries "english" (tolist (dropna issues)) = Ok X /\
    fst (@kmeans_fit_predict toy_libraries 6 10 (RandomState_seed 42%Z) X) = Ok clusters /\
    Forall (fun l => (0 <= l < Z.of_nat 6)%Z) clusters /\
    length (values cats) = length (values issues) /\
    select (notna_mask issues) (values cats) =
      map (fun l => Flt (float64_of_Z l)) clusters /\
    Forall (fun c => c = NaN) (select (map negb (notna_mask issues)) (values cats)).
Proof.
  apply (ai_category_labels_in_table_order toy_libraries toy_libraries_spec
           (loaded fleet_sheet 0) _ 0 0 6).
  - vm_compute. reflexivity.
  - vm_compute. reflexivity.
Defined.

Lemma insert_cell_In : forall c x l, In x (insert_cell c l) -> x = c \/ In x l.
Proof.
  intros c x l. induction l as [|h t IH]; simpl; intro H.
  - destruct H as [H|[]]; auto.
  - destruct (py_le c h); simpl in H.
    + destruct H as [H|H]; auto.
    + destruct H as [H|H]; [right; left; exact H|].
      destruct (IH H) as [E|Ht]; auto.
Qed.

Lemma sorted_In : forall l out x, sorted l = Ok out -> In x out -> In x l.
Proof.
  intros l out x. unfold sorted. destruct (_ || _); [|discriminate].
  intro H. inversion H. subst out. clear H.
  induction l as [|c t IH]; simpl; intro Hin.
  - contradiction.
  - apply insert_cell_In in Hin. destruct Hin as [E|Hin]; auto.
Qed.

Lemma unique_In : forall s x, In x (unique s) -> In x (values s).
Proof.
  intros s x H. unfold unique in H. apply (keys_count_table _ cell_eqb_eq). exact H.
Qed.

Lemma insert_cell_perm : forall c l, Permutation (insert_cell c l) (c :: l).
Proof.
  intros c l. induction l as [|h t IH]; simpl.
  - apply Permutation_refl.
  - destruct (py_le c h).
    + apply Permutation_refl.
    + eapply perm_trans; [apply perm_skip, IH | apply perm_swap].
Qed.

(** [sorted] returns the values it was given, each as often as it was
    given. *)
Lemma sorted_perm : forall l out, sorted l = Ok out -> Permutation out l.
Proof.
  intros l out. unfold sorted. destruct (_ || _); [|discriminate].
  intro H. inversion H. subst out. clear H.
  induction l as [|c t IH]; simpl.
  - constructor.
  - eapply perm_trans; [apply insert_cell_perm | apply perm_skip, IH].
Qed.

(** [unique] has every value of the column, once. *)
Lemma unique_complete : forall s x, In x (values s) -> In x (unique s).
Proof.
  intros s x H. unfold unique. apply (keys_count_table _ cell_eqb_eq). exact H.
Qed.

Lemma unique_NoDup : forall s, NoDup (unique s).
Proof. intro s. unfold unique. apply (NoDup_keys_count_table _ cell_eqb_eq). Qed.

(** C9, as the code has it.  After a successful clustering step on a
    table that had no [ai_category] column of its own (with K at most
    2^53, far beyond any number of clusters that fits a machine), the
    column is a float64 column: every stored value is a float, either
    the missing marker NaN or a float exactly equal to an integer in
    [0, K).  The options computed for the category selector are exactly
    the stored values that are not missing, each once; they are such
    floats, and filtering by a selected category is a comparison of
    floats. *)
Theorem ai_category_stored_as_floats :
  forall (L : Libraries), LibrariesSpec L ->
  forall (w w' : World) (df r : frame_ref) (K : nat),
    (Z.of_nat K <= 2 ^ 53)%Z ->
    unlabelled (frame_at df w) ->
    ai_cluster_issues df K w = (Ok r, w') ->
    exists cats options,
      getitem (frame_at r w') "ai_category" = Ok cats /\
      s_dtype cats = Float64 /\
      Forall (fun c => c = NaN \/ float_label K c) (values cats) /\
      sorted (unique (dropna cats)) = Ok options /\
      (forall c, In c options <-> In c (values cats) /\ notna c = true) /\
      NoDup options /\
      Forall (float_label K) options /\
      forall category, In category options ->
        exists y, category = Flt y /\
          eq_mask cats (Some category) =
            map (fun c => match c with Flt x => SFeqb x y | _ => false end) (values cats).
Proof.
  intros L HL w w' df r K HK Hnew H.
  destruct (ai_cluster_issues_Ok df K w w' r Hnew H)
    as (s & X & clusters & Es & EX & Ec & Hrows & Hlen & -> & Ef).
  pose proof (proj2 (kmeans_labels HL _ _ _ _ Ec)) as Hrange.
  set (cats := mkSeries Float64
                 (scatter (notna_mask s) (map (fun z => Flt (float64_of_Z z)) clusters)
                    (repeat NaN (nrows (frame_at df w))))) in *.
  assert (Hcells : Forall (fun c => c = NaN \/ float_label K c) (values cats)).
  { apply scatter_Forall.
    - apply Forall_map. eapply Forall_impl; [|exact Hrange].
      intros z Hz. cbv beta in Hz. right. exists (float64_of_Z z), z.
      split; [reflexivity|]. split; [apply float_integer_value_of_Z; lia | exact Hz].
    - apply Forall_forall. intros c Hc. apply repeat_spec in Hc. left. exact Hc. }
  assert (Hfloat : forall c, In c (values cats) -> exists f, c = Flt f).
  { rewrite Forall_forall in Hcells. intros c Hc.
    destruct (Hcells c Hc) as [->|(f & k & -> & _)]; eexists; reflexivity. }
  assert (Hsub : forall c, In c (unique (dropna cats)) ->
                   In c (values cats) /\ float_label K c).
  { intros c Hc. apply unique_In in Hc. simpl in Hc.
    apply filter_In in Hc. destruct Hc as [Hin Hn]. split; [exact Hin|].
    rewrite Forall_forall in Hcells. destruct (Hcells c Hin) as [->|Hl]; [discriminate|exact Hl]. }
  assert (Hnum : forallb is_number (unique (dropna cats)) = true).
  { apply forallb_forall. intros c Hc.
    destruct (proj2 (Hsub c Hc)) as (f & k & -> & _). reflexivity. }
  exists cats. eexists. rewrite Ef, getitem_setitem_same.
  split; [reflexivity|]. split; [reflexivity|]. split; [exact Hcells|].
  split; [unfold sorted; rewrite Hnum, orb_true_r; reflexivity|].
  assert (Hsorted : sorted (unique (dropna cats))
                    = Ok (fold_right insert_cell [] (unique (dropna cats))))
    by (unfold sorted; rewrite Hnum, orb_true_r; reflexivity).
  pose proof (sorted_perm _ _ Hsorted) as Hperm.
  split.
  { intro c. split.
    - intro Hc. apply (Permutation_in _ Hperm) in Hc. apply unique_In in Hc.
      simpl in Hc. apply filter_In in Hc. exact Hc.
    - intros [Hin Hn]. apply (Permutation_in _ (Permutation_sym Hperm)).
      apply unique_complete. simpl. apply filter_In. split; assumption. }
  split.
  { eapply Permutation_NoDup; [apply Permutation_sym, Hperm | apply unique_NoDup]. }
  assert (Hopt : forall c, In c (fold_right insert_cell [] (unique (dropna cats))) ->
                   float_label K c).
  { intros c Hc. apply Hsub. eapply sorted_In; [|exact Hc].
    unfold sorted. rewrite Hnum, orb_true_r. reflexivity. }
  split; [apply Forall_forall; exact Hopt|].
  intros category Hc. destruct (Hopt category Hc) as (y & k & -> & _).
  exists y. split; [reflexivity|]. unfold eq_mask.
  apply map_ext_in. intros c Hin. destruct (Hfloat c Hin) as [f ->]. reflexivity.
Qed.

Lemma ai_category_stored_as_floats_witness :
  exists cats options,
    getitem (frame_at 0 (snd (ai_cluster_issues 0 6 (loaded fleet_sheet 0))))
      "ai_category" = Ok cats /\
    s_dtype cats = Float64 /\
    Forall (fun c => c = NaN \/ float_label 6 c) (values cats) /\
    sorted (unique (dropna cats)) = Ok options /\
    (forall c, In c options <-> In c (values cats) /\ notna c = true) /\
    NoDup options /\
    Forall (float_label 6) options /\
    forall category, In category options ->
      exists y, category = Flt y /\
        eq_mask cats (Some category) =
          map (fun c => match c with Flt x => SFeqb x y | _ => false end) (values cats).
Proof.
  apply (ai_category_stored_as_floats toy_libraries toy_libraries_spec
           (loaded fleet_sheet 0) _ 0 0 6).
  - vm_compute. discriminate.
  - vm_compute. reflexivity.
  - vm_compute. reflexivity.
Defined.

(** C9 as stated fails: a table that brings a column of categories of
    its own, holding whole numbers, is clustered without error, and the
    labels are then stored in that column as whole numbers: no stored
    value is a float. *)
Lemma ai_category_kept_as_integers :
  exists (w1 w2 : @World toy_libraries) cats,
    load_data (Upload (Sheet labelled_sheet)) (session labelled_sheet 0) = (Ok 0, w1) /\
    ai_cluster_issues 0 6 w1 = (Ok 0, w2) /\
    getitem (frame_at 0 w2) "ai_category" = Ok cats /\
    s_dtype cats = Int64 /\
    values cats = [Int 1; Int 0; Int 4; Int 0; Int 0; Int 9; Int 0; Int 4].
Proof.
  eexists. eexists. eexists.
  split; [vm_compute; reflexivity|].
  split; [vm_compute; reflexivity|].
  split; [vm_compute; reflexivity|].
  split; vm_compute; reflexivity.
Qed.

(** C3.  The labels do not depend on the state of the world around the
    table: run on two worlds that hold the same table behind [df] (and
    may differ in everything else, the process-wide random generator
    included) the clustering step gives the same outcome and leaves the
    same table, category by category.  The generator k-means draws from
    is the fresh one made from the seed 42 on every run. *)
Theorem ai_cluster_issues_deterministic :
  forall (L : Libraries) (w1 w2 : World) (df : frame_ref) (K : nat),
    frame_at df w1 = frame_at df w2 ->
    fst (ai_cluster_issues df K w1) = fst (ai_cluster_issues df K w2) /\
    frame_at df (snd (ai_cluster_issues df K w1)) =
    frame_at df (snd (ai_cluster_issues df K w2)).
Proof.
  intros L w1 w2 df K Hsame. rewrite !ai_cluster_issues_eq. rewrite <- Hsame.
  destruct (getitem (frame_at df w1) "boat_issue") as [s|e] eqn:Es;
    [|split; [reflexivity | exact Hsame]].
  destruct (tfidf_fit_transform _ _) as [X|e]; [|split; [reflexivity | exact Hsame]].
  destruct (fst (kmeans_fit_predict _ _ _ X)) as [clusters|e];
    [|split; [reflexivity | exact Hsame]].
  destruct (loc_setitem_mask _ _ _ clusters) as [d|e];
    [|split; [reflexivity | exact Hsame]].
  split; [reflexivity|]. simpl.
  rewrite !frame_at_store; [reflexivity | |].
  - apply getitem_valid_ref with (label := "boat_issue") (s := s).
    rewrite <- Hsame. exact Es.
  - apply getitem_valid_ref with (label := "boat_issue") (s := s). exact Es.
Qed.

Lemma ai_cluster_issues_deterministic_witness :
  fst (ai_cluster_issues 0 6 (loaded fleet_sheet 0)) =
  fst (ai_cluster_issues 0 6 (loaded fleet_sheet 7)) /\
  frame_at 0 (snd (ai_cluster_issues 0 6 (loaded fleet_sheet 0))) =
  frame_at 0 (snd (ai_cluster_issues 0 6 (loaded fleet_sheet 7))).
Proof.
  apply (ai_cluster_issues_deterministic toy_libraries
           (loaded fleet_sheet 0) (loaded fleet_sheet 7) 0 6).
  vm_compute. reflexivity.
Defined.

(* ===================================================================== *)
(** * The summaries and the charts *)
(* ===================================================================== *)







(** The scenario of the specification: alpha is ranked above beta, with
    counts 2 and 1. *)
Example top_boats_small_sheet :
  exists w', plot_top_boats 0 (loaded small_sheet 0) = (Ok tt, w') /\
    ui w' = [top_boats_chart [(Str "alpha", 2); (Str "beta", 1)]].
Proof. eexists. split; vm_compute; reflexivity. Qed.

Lemma plot_timeline_eq : forall (L : Libraries) (w : World) (df : frame_ref) (dates : Series),
  getitem (frame_at df w) "date" = Ok dates ->
  is_datetimelike dates = true ->
  plot_timeline df w =
  match plot_line (groupby_size (map period_key (values dates))) with
  | Ok _ =>
      (Ok tt,
       with_ui (ui w ++ [timeline_chart (groupby_size (map period_key (values dates)))]) w)
  | Raise e => (Raise e, w)
  end.
Proof.
  intros L w df dates Hd Hdt.
  assert (Hk : dt_to_period_M dates = Ok (map period_key (values dates)))
    by (unfold dt_to_period_M; rewrite Hdt; reflexivity).
  unfold plot_timeline, column, bind, get_frame, lift, render. cbv beta iota zeta.
  rewrite Hd. cbv beta iota. rewrite Hk. cbv beta iota.
  destruct (plot_line (groupby_size (map period_key (values dates)))); reflexivity.
Qed.

Lemma plot_line_cases : forall buckets : list (Z * nat),
  (buckets <> [] -> plot_line buckets = Ok tt) /\
  (buckets = [] -> exists e, plot_line buckets = Raise e /\ is_ValueError e = true).
Proof.
  intros [|e t]; split; intro H; try congruence; try reflexivity.
  eexists. split; reflexivity.
Qed.

(** The month of a period, read back from its number. *)
Lemma period_number_decode : forall (t : Timestamp) (p : Z),
  (1 <= month t <= 12)%Z ->
  to_period_M t = p <-> (year t = 1970 + p / 12 /\ month t = p mod 12 + 1)%Z.
Proof.
  intros t p Hm. unfold to_period_M.
  pose proof (Z.div_mod p 12 ltac:(lia)) as Hp.
  pose proof (Z.mod_pos_bound p 12 ltac:(lia)) as Hb.
  split.
  - intro E. subst p.
    assert (Hq : (((year t - 1970) * 12 + (month t - 1)) / 12 = year t - 1970)%Z).
    { rewrite Z.add_comm, Z.div_add by lia. rewrite Z.div_small by lia. lia. }
    assert (Hr : (((year t - 1970) * 12 + (month t - 1)) mod 12 = month t - 1)%Z).
    { rewrite Z.add_comm, Z.mod_add by lia. apply Z.mod_small. lia. }
    rewrite Hq, Hr. lia.
  - intros [Ey Em]. rewrite Ey, Em. lia.
Qed.

Lemma StronglySorted_map : forall (A B : Type) (R : A -> A -> Prop) (R' : B -> B -> Prop)
    (f : A -> B) (l : list A),
  (forall a b, R a b -> R' (f a) (f b)) ->
  StronglySorted R l -> StronglySorted R' (map f l).
Proof.
  intros A B R R' f l Himp H. induction H as [|a l Hl IH Ha]; simpl; constructor.
  - exact IH.
  - rewrite Forall_forall in *. intros b Hb. apply in_map_iff in Hb.
    destruct Hb as (x & <- & Hx). apply Himp, Ha, Hx.
Qed.

Lemma Forall2_map_r_In : forall (A B : Type) (R : A -> B -> Prop) (g : A -> B) (l : list A),
  (forall a, In a l -> R a (g a)) -> Forall2 R l (map g l).
Proof.
  intros A B R g l. induction l as [|a t IH]; intro H; simpl; constructor.
  - apply H. left. reflexivity.
  - apply IH. intros b Hb. apply H. right. exact Hb.
Qed.

Lemma filter_in_month_calendar : forall (p : Z) (vals : list cell),
  months_of_calendar vals ->
  filter (in_month p) vals
  = filter (in_calendar_month (1970 + p / 12) (p mod 12 + 1)) vals.
Proof.
  intros p vals H. apply filter_ext_in. intros c Hc.
  unfold months_of_calendar in H. rewrite Forall_forall in H. specialize (H c Hc).
  destruct c as [x|z|f|t|]; try reflexivity.
  unfold in_month, in_calendar_month.
  specialize (H t eq_refl).
  destruct (period_number_decode t p H) as [H1 H2].
  destruct (Z.eqb_spec (to_period_M t) p) as [E|E].
  - destruct (H1 E) as [Ey Em]. rewrite Ey, Em, !Z.eqb_refl. reflexivity.
  - destruct (Z.eqb_spec (year t) (1970 + p / 12)) as [Ey|Ey]; [|reflexivity].
    destruct (Z.eqb_spec (month t) (p mod 12 + 1)) as [Em|Em]; [|reflexivity].
    exfalso. apply E, H2. split; assumption.
Qed.

(** The timeline of a date column is a timeline by calendar month. *)
Lemma groupby_size_calendar : forall (s : Series) (keys : list (option Z)),
  dt_to_period_M s = Ok keys ->
  months_of_calendar (values s) ->
  calendar_timeline (values s) (groupby_size keys)
    (map (fun b => (1970 + fst b / 12, fst b mod 12 + 1)%Z) (groupby_size keys)).
Proof.
  intros s keys Hk Hcal.
  pose proof (@groupby_size_summary s keys Hk) as [Hasc Hcounts Hcomplete Htotal].
  constructor.
  - rewrite Forall_forall. intros ym Hin. apply in_map_iff in Hin.
    destruct Hin as (b & <- & _). cbn [fst snd].
    pose proof (Z.mod_pos_bound (fst b) 12 ltac:(lia)). lia.
  - eapply StronglySorted_map; [|exact Hasc]. intros a b Hab. cbv beta in Hab. cbn [fst snd].
    pose proof (Z.div_mod (fst a) 12 ltac:(lia)).
    pose proof (Z.div_mod (fst b) 12 ltac:(lia)).
    pose proof (Z.mod_pos_bound (fst a) 12 ltac:(lia)).
    pose proof (Z.mod_pos_bound (fst b) 12 ltac:(lia)).
    lia.
  - apply Forall2_map_r_In. intros [p n] Hin. cbn [fst snd].
    destruct (Hcounts p n Hin) as [Hpos Hn].
    split; [|split; [|exact Hpos]].
    + pose proof (Z.div_mod p 12 ltac:(lia)). lia.
    + rewrite Hn. rewrite (filter_in_month_calendar p (values s) Hcal). reflexivity.
  - intros t Ht. specialize (Hcomplete t Ht). apply in_map_iff in Hcomplete.
    destruct Hcomplete as (b & Eb & Hb). apply in_map_iff. exists b. split; [|exact Hb].
    unfold months_of_calendar in Hcal. rewrite Forall_forall in Hcal.
    destruct (period_number_decode t (fst b) (Hcal _ Ht t eq_refl)) as [H1 _].
    destruct (H1 (eq_sym Eb)) as [Ey Em]. rewrite Ey, Em. reflexivity.
  - exact Htotal.
Qed.

(** C6.  Over a datetime column whose timestamps have months of the
    calendar, the timeline summary has one bucket per calendar month in
    which a record is dated: the buckets stand in chronological order
    (by year, then by month), each is keyed by the number of its month
    counted from January 1970 and counts the records whose date has that
    year and that month; every record with a date is in the bucket of
    its month, the records whose date is the missing marker are in no
    bucket, and the counts add up to the number of records with a
    non-missing date.  [plot_timeline] draws this summary when it has a
    bucket; when no record has a date the plotting call raises a
    [ValueError] and nothing is drawn. *)
Theorem timeline_counts_dated_records :
  forall (L : Libraries) (w : World) (df : frame_ref) (dates : Series),
    getitem (frame_at df w) "date" = Ok dates ->
    is_datetimelike dates = true ->
    months_of_calendar (values dates) ->
    exists buckets months,
      calendar_timeline (values dates) buckets months /\
      (buckets <> [] ->
       plot_timeline df w = (Ok tt, with_ui (ui w ++ [timeline_chart buckets]) w)) /\
      (buckets = [] ->
       exists e, plot_timeline df w = (Raise e, w) /\ is_ValueError e = true).
Proof.
  intros L w df dates Hd Hdt Hcal.
  assert (Hk : dt_to_period_M dates = Ok (map period_key (values dates)))
    by (unfold dt_to_period_M; rewrite Hdt; reflexivity).
  exists (groupby_size (map period_key (values dates))). eexists.
  split; [apply (groupby_size_calendar dates _ Hk Hcal)|].
  rewrite (plot_timeline_eq L w df dates Hd Hdt).
  destruct (plot_line_cases (groupby_size (map period_key (values dates))))
    as [Hsome Hnone].
  split; intro H.
  - rewrite (Hsome H). reflexivity.
  - destruct (Hnone H) as (e & He & Hv). exists e. rewrite He.
    split; [reflexivity | exact Hv].
Qed.

Lemma timeline_counts_dated_records_witness :
  exists buckets months,
    calendar_timeline
      [on_day 2023 1 5; on_day 2023 2 10; on_day 2023 1 20; on_day 2023 3 1;
       NaT; on_day 2023 3 15; on_day 2023 2 11; on_day 2023 3 20] buckets months /\
    (buckets <> [] ->
     plot_timeline 0 (loaded fleet_sheet 0) =
       (Ok tt, with_ui (ui (loaded fleet_sheet 0) ++ [timeline_chart buckets])
                 (loaded fleet_sheet 0))) /\
    (buckets = [] ->
     exists e, plot_timeline 0 (loaded fleet_sheet 0) = (Raise e, loaded fleet_sheet 0) /\
               is_ValueError e = true).
Proof.
  apply (timeline_counts_dated_records toy_libraries (loaded fleet_sheet 0) 0
           (mkSeries Datetime64
              [on_day 2023 1 5; on_day 2023 2 10; on_day 2023 1 20; on_day 2023 3 1;
               NaT; on_day 2023 3 15; on_day 2023 2 11; on_day 2023 3 20])).
  - vm_compute. reflexivity.
  - vm_compute. reflexivity.
  - unfold months_of_calendar. rewrite Forall_forall. intros c Hc t E. subst c.
    simpl in Hc.
    repeat (destruct Hc as [Hc|Hc]; [inversion Hc; subst; simpl; lia|]).
    contradiction.
Defined.

(** The scenario of the specification: two buckets, 2023-01 with two
    records and 2023-02 with one (months 636 and 637 since 1970-01). *)
Example timeline_small_sheet :
  exists w', plot_timeline 0 (loaded small_sheet 0) = (Ok tt, w') /\
    ui w' = [timeline_chart [(636%Z, 2); (637%Z, 1)]].
Proof. eexists. split; vm_compute; reflexivity. Qed.

(* ===================================================================== *)
(** * The exported document *)
(* ===================================================================== *)



















Lemma pdf_cell_Ok : forall (pdf : FPDF) (w h : Z) (text : string) (nl : bool) (al : string),
  latin1 text = true ->
  pdf_cell pdf w h text nl al =
  Ok (mkFPDF (auto_page_break pdf) (page_count pdf) (font pdf)
        (cells pdf ++ [mkPdfCell w h text nl al (fst (font pdf)) (snd (font pdf))])).
Proof. intros pdf w h text nl al H. unfold pdf_cell. rewrite H. reflexivity. Qed.

Lemma pdf_cell_Raise : forall (pdf : FPDF) (w h : Z) (text : string) (nl : bool) (al : string),
  latin1 text = false ->
  exists e, pdf_cell pdf w h text nl al = Raise e /\ is_encoding_error e = true.
Proof.
  intros pdf w h text nl al H. unfold pdf_cell. rewrite H.
  eexists. split; reflexivity.
Qed.

(** The loop over a summary writes one cell per entry, in order, in the
    font in force, when every line is in latin-1. *)
Lemma for_each_entry_Ok : forall (L : Libraries) (entries : list (cell * nat)) (pdf : FPDF),
  Forall (fun e => latin1 (entry_line e) = true) entries ->
  for_each_entry entries pdf =
  Ok (mkFPDF (auto_page_break pdf) (page_count pdf) (font pdf)
        (cells pdf ++ map (fun e => mkPdfCell 200 8 (entry_line e) true ""
                                      (fst (font pdf)) (snd (font pdf))) entries)).
Proof.
  intros L entries. induction entries as [|e t IH]; intros pdf H.
  - simpl. rewrite app_nil_r. destruct pdf; reflexivity.
  - inversion H as [|? ? He Ht]; subst. cbn [for_each_entry].
    rewrite (pdf_cell_Ok pdf 200 8 (entry_line e) true "" He).
    rewrite (IH _ Ht). cbn [auto_page_break page_count font cells map].
    rewrite <- app_assoc. reflexivity.
Qed.

(** The loop stops at the first entry whose line is not in latin-1. *)
Lemma for_each_entry_Raise : forall (L : Libraries) (entries : list (cell * nat)) (pdf : FPDF),
  Exists (fun e => latin1 (entry_line e) = false) entries ->
  exists x, for_each_entry entries pdf = Raise x /\ is_encoding_error x = true.
Proof.
  intros L entries. induction entries as [|e t IH]; intros pdf H.
  - inversion H.
  - cbn [for_each_entry]. destruct (latin1 (entry_line e)) eqn:He.
    + rewrite (pdf_cell_Ok pdf 200 8 (entry_line e) true "" He).
      apply IH. inversion H as [? ? Hx|? ? Hx]; subst; [congruence | exact Hx].
    + destruct (pdf_cell_Raise pdf 200 8 (entry_line e) true "" He) as (x & Hx & Hk).
      exists x. rewrite Hx. split; [reflexivity | exact Hk].
Qed.

(** [export_pdf] returns what [export_doc] says and changes nothing. *)
Lemma export_pdf_eq : forall (L : Libraries) (w : World) (df : frame_ref),
  export_pdf df w = (export_doc (clock w) (frame_at df w), w).
Proof.
  intros L w df. unfold export_pdf, export_doc, and_then.
  unfold bind at 1. unfold lift at 1.
  destruct (pdf_cell _ 200 10 "Boat Issues Report" true "C") as [p1|e]; [|reflexivity].
  unfold bind at 1. unfold datetime_now at 1. cbv beta iota.
  unfold bind at 1. unfold lift at 1.
  destruct (pdf_cell _ 200 10 ("Generated: " ++ strftime_minutes (clock w)) true "")
    as [p2|e]; [|reflexivity].
  unfold bind at 1. unfold lift at 1.
  destruct (pdf_cell p2 200 10 "Top Issues:" true "") as [p3|e]; [|reflexivity].
  unfold bind at 1. unfold column at 1. unfold bind at 1. unfold get_frame at 1.
  unfold lift at 1.
  destruct (getitem (frame_at df w) "boat_issue_class") as [s1|e]; [|reflexivity].
  unfold bind at 1. unfold lift at 1.
  destruct (for_each_entry (head 10 (value_counts s1)) p3) as [p4|e]; [|reflexivity].
  unfold bind at 1. unfold lift at 1.
  destruct (pdf_cell p4 200 10 "Top Boats:" true "") as [p5|e]; [|reflexivity].
  unfold bind at 1. unfold column at 1. unfold bind at 1. unfold get_frame at 1.
  unfold lift at 1.
  destruct (getitem (frame_at df w) "boat_name") as [s2|e]; [|reflexivity].
  unfold bind at 1. unfold lift at 1.
  destruct (for_each_entry (head 10 (value_counts s2)) p5) as [p6|e]; reflexivity.
Qed.





(** The document of a table with the two summarised columns, cell by
    cell, when everything to be written is in latin-1. *)
Lemma export_doc_Ok : forall (L : Libraries) (now : Timestamp) (d : DataFrame)
    (classes boats : Series),
  getitem d "boat_issue_class" = Ok classes ->
  getitem d "boat_name" = Ok boats ->
  latin1 ("Generated: " ++ strftime_minutes now) = true ->
  Forall (fun e => latin1 (entry_line e) = true) (head 10 (value_counts classes)) ->
  Forall (fun e => latin1 (entry_line e) = true) (head 10 (value_counts boats)) ->
  export_doc now d =
  Ok ([mkPdfCell 200 10 "Boat Issues Report" true "C" "Arial" 14;
       mkPdfCell 200 10 ("Generated: " ++ strftime_minutes now) true "" "Arial" 12;
       mkPdfCell 200 10 "Top Issues:" true "" "Arial" 12]
      ++ map (fun e => mkPdfCell 200 8 (entry_line e) true "" "Arial" 12)
           (head 10 (value_counts classes))
      ++ [mkPdfCell 200 10 "Top Boats:" true "" "Arial" 12]
      ++ map (fun e => mkPdfCell 200 8 (entry_line e) true "" "Arial" 12)
           (head 10 (value_counts boats))).
Proof.
  intros L now d classes boats Hc Hb Hnow Hi Ht.
  unfold export_doc.
  rewrite (pdf_cell_Ok _ 200 10 "Boat Issues Report" true "C" eq_refl).
  cbn [and_then].
  rewrite (pdf_cell_Ok _ 200 10 ("Generated: " ++ strftime_minutes now) true "" Hnow).
  cbn [and_then].
  rewrite (pdf_cell_Ok _ 200 10 "Top Issues:" true "" eq_refl).
  cbn [and_then]. rewrite Hc. cbn [and_then].
  rewrite (for_each_entry_Ok L _ _ Hi). cbn [and_then].
  rewrite (pdf_cell_Ok _ 200 10 "Top Boats:" true "" eq_refl).
  cbn [and_then]. rewrite Hb. cbn [and_then].
  rewrite (for_each_entry_Ok L _ _ Ht). cbn [and_then].
  unfold pdf_output.
  cbn [cells font fst snd set_font add_page set_auto_page_break FPDF_new
       auto_page_break page_count app].
  rewrite <- !app_assoc. reflexivity.
Qed.




(** The document of the empty table, line by line. *)
Example export_pdf_empty_sheet :
  exists doc,
    export_pdf 0 (loaded empty_sheet 0) = (Ok doc, loaded empty_sheet 0) /\
    map txt doc =
      ["Boat Issues Report"; "Generated: 2024-03-07 09:05"; "Top Issues:"; "Top Boats:"].
Proof. eexists. split; vm_compute; reflexivity. Qed.

(** The document of the sample table: three issue classes and five
    boats, fewer than ten each. *)
Example export_pdf_fleet_sheet :
  exists doc,
    export_pdf 0 (loaded fleet_sheet 0) = (Ok doc, loaded fleet_sheet 0) /\
    map txt doc =
      ["Boat Issues Report"; "Generated: 2024-03-07 09:05";
       "Top Issues:"; "Mechanical: 4"; "Hull: 2"; "Electrical: 2";
       "Top Boats:"; "alpha: 3"; "beta: 2"; "gamma: 1"; "delta: 1"].
Proof. eexists. split; vm_compute; reflexivity. Qed.

(** C10.  Exporting changes nothing: whether it returns a document or
    raises, the world after [export_pdf] is the world before it, so every
    table in the store holds the same value in every column and row. *)
Theorem export_pdf_leaves_tables_unchanged :
  forall (L : Libraries) (w : World) (df : frame_ref),
    snd (export_pdf df w) = w /\
    frames (snd (export_pdf df w)) = frames w /\
    forall (table : frame_ref) (label : string) (i : nat),
      cell_at (frame_at table (snd (export_pdf df w))) label i =
      cell_at (frame_at table w) label i.
Proof.
  intros L w df.
  assert (H : snd (export_pdf df w) = w) by (rewrite export_pdf_eq; reflexivity).
  rewrite H. repeat split.
Qed.

(* ===================================================================== *)
(** * The loader *)
(* ===================================================================== *)

Section LoaderFacts.
Context {L : Libraries}.

Lemma bind_lift : forall (A B : Type) (r : result A) (k : A -> M B) (w : World),
  bind (lift r) k w =
  match r with Ok a => k a w | Raise e => (Raise e, w) end.
Proof. intros A B r k w. unfold bind, lift. destruct r; reflexivity. Qed.

Lemma bind_column_new : forall (B : Type) (w : World) d label (k : Series -> M B),
  bind (column (length (frames w)) label) k (with_new_frame w d) =
  match getitem d label with
  | Ok s => k s (with_new_frame w d)
  | Raise e => (Raise e, with_new_frame w d)
  end.
Proof.
  intros B w d label k. unfold bind, column, get_frame, lift, frame_at, with_new_frame.
  simpl. rewrite nth_snoc. destruct (getitem d label); reflexivity.
Qed.

Lemma set_column_new : forall (w : World) d label s,
  set_column (length (frames w)) label s (with_new_frame w d) =
  (Ok tt, with_new_frame w (setitem d label s)).
Proof.
  intros w d label s.
  unfold set_column, bind, get_frame, put_frame, frame_at, with_new_frame, with_frames.
  simpl. rewrite nth_snoc, store_at_snoc. reflexivity.
Qed.

Lemma rename_new : forall (w : World) d f,
  bind (get_frame (length (frames w)))
    (fun d => put_frame (length (frames w)) (rename_columns f d)) (with_new_frame w d) =
  (Ok tt, with_new_frame w (rename_columns f d)).
Proof.
  intros w d f.
  unfold bind, get_frame, put_frame, frame_at, with_new_frame, with_frames.
  simpl. rewrite nth_snoc, store_at_snoc. reflexivity.
Qed.

Lemma bind_step : forall (A B : Type) (m : M A) (k : A -> M B) (w w1 : World) a,
  m w = (Ok a, w1) -> bind m k w = k a w1.
Proof. intros A B m k w w1 a H. unfold bind. rewrite H. reflexivity. Qed.

(** [load_data], unfolded: when the sheet can be read and normalised,
    the function allocates one new frame object holding the normalised
    table and returns the reference to it; otherwise it raises the
    error of the step that failed. *)
Lemma load_data_cases : forall file (w : World),
  (exists e w', load_data file w = (Raise e, w') /\
     (sheet_of file w = Raise e \/
      exists raw, sheet_of file w = Ok raw /\ normalized raw = Raise e)) \/
  (exists raw d, sheet_of file w = Ok raw /\ normalized raw = Ok d /\
     load_data file w = (Ok (length (frames w)), with_new_frame w d)).
Proof.
  intros file w. remember (load_data file w) as r eqn:Hr.
  unfold load_data in Hr. unfold bind at 1 in Hr. unfold read_excel at 1 in Hr.
  destruct (sheet_of file w) as [raw|e] eqn:Esheet;
    [|left; exists e, w; split; [exact Hr | left; reflexivity]].
  assert (Hgoal :
            (exists e w', r = (Raise e, w') /\ normalized raw = Raise e) \/
            (exists d, normalized raw = Ok d /\
               r = (Ok (length (frames w)), with_new_frame w d)) ->
            (exists e w', r = (Raise e, w') /\
               (Ok raw = Raise e \/
                exists raw0, Ok raw = Ok raw0 /\ normalized raw0 = Raise e)) \/
            (exists raw0 d, Ok raw = Ok raw0 /\ normalized raw0 = Ok d /\
               r = (Ok (length (frames w)), with_new_frame w d))).
  { intros [(e & w' & Hr' & Hn)|(d & Hn & Hr')].
    - left. exists e, w'. split; [exact Hr'|]. right. exists raw. split; [reflexivity|exact Hn].
    - right. exists raw, d. repeat split; assumption. }
  apply Hgoal. clear Hgoal.
  unfold new_frame in Hr. fold (with_new_frame w raw) in Hr.
  unfold bind at 1 in Hr. rewrite rename_new in Hr.
  unfold normalized, and_then.
  set (d1 := rename_columns normalize_label raw) in *.
  unfold bind at 1 in Hr. rewrite bind_column_new in Hr.
  destruct (getitem d1 "boat_name") as [s|e];
    [|left; eexists; eexists; split; [exact Hr | reflexivity]].
  rewrite bind_lift in Hr. destruct (str_method PyStr.strip s) as [s1|e];
    [|left; eexists; eexists; split; [exact Hr | reflexivity]].
  rewrite bind_lift in Hr. destruct (str_method PyStr.lower s1) as [s2|e];
    [|left; eexists; eexists; split; [exact Hr | reflexivity]].
  rewrite set_column_new in Hr. set (d2 := setitem d1 "boat_name" s2) in *.
  unfold bind at 1 in Hr. rewrite bind_column_new in Hr.
  destruct (getitem d2 "boat_issue") as [i|e];
    [|left; eexists; eexists; split; [exact Hr | reflexivity]].
  rewrite bind_lift in Hr. destruct (str_method PyStr.strip i) as [i1|e];
    [|left; eexists; eexists; split; [exact Hr | reflexivity]].
  rewrite set_column_new in Hr. set (d3 := setitem d2 "boat_issue" i1) in *.
  unfold bind at 1 in Hr. rewrite bind_column_new in Hr.
  destruct (getitem d3 "boat_issue_(class)") as [c|e];
    [|left; eexists; eexists; split; [exact Hr | reflexivity]].
  rewrite bind_lift in Hr. destruct (str_method PyStr.strip c) as [c1|e];
    [|left; eexists; eexists; split; [exact Hr | reflexivity]].
  rewrite bind_lift in Hr. destruct (str_method PyStr.title c1) as [c2|e];
    [|left; eexists; eexists; split; [exact Hr | reflexivity]].
  rewrite set_column_new in Hr. set (d4 := setitem d3 "boat_issue_class" c2) in *.
  unfold bind at 1 in Hr. rewrite bind_column_new in Hr.
  destruct (getitem d4 "date") as [t|e];
    [|left; eexists; eexists; split; [exact Hr | reflexivity]].
  rewrite set_column_new in Hr. unfold ret in Hr.
  right. eexists. split; [reflexivity | exact Hr].
Qed.

Lemma load_data_Ok : forall file (w w' : World) df,
  load_data file w = (Ok df, w') ->
  exists raw d,
    sheet_of file w = Ok raw /\ normalized raw = Ok d /\
    df = length (frames w) /\ w' = with_new_frame w d.
Proof.
  intros file w w' df H.
  destruct (load_data_cases file w) as [(e & w1 & Hr & _)|(raw & d & Hs & Hn & Hr)].
  - rewrite Hr in H. discriminate.
  - rewrite Hr in H. inversion H. exists raw, d. repeat split; assumption.
Qed.

End LoaderFacts.

Lemma str_method_values : forall f s s',
  str_method f s = Ok s' -> values s' = map (str_cell f) (values s).
Proof.
  intros f s s'. unfold str_method. destruct (str_accessor_ok s); [|discriminate].
  intro H. inversion H. reflexivity.
Qed.

Lemma str_cell_notna : forall f c, notna (str_cell f c) = is_Str c.
Proof. intros f [x|z|x|t|]; reflexivity. Qed.

Lemma Forall2_map_r : forall (A B : Type) (R : A -> B -> Prop) (g : A -> B) (l : list A),
  (forall a, R a (g a)) -> Forall2 R l (map g l).
Proof.
  intros A B R g l H. induction l as [|a t IH]; simpl; constructor; auto.
Qed.

(** What a successfully normalised table holds in the two columns of
    C8, in terms of the sheet's columns after renaming. *)
Lemma normalized_names_and_classes : forall (L : Libraries) raw d,
  normalized raw = Ok d ->
  exists names classes names' classes',
    getitem (rename_columns normalize_label raw) "boat_name" = Ok names /\
    getitem (rename_columns normalize_label raw) "boat_issue_(class)" = Ok classes /\
    getitem d "boat_name" = Ok names' /\
    getitem d "boat_issue_class" = Ok classes' /\
    values names' =
      map (str_cell PyStr.lower) (map (str_cell PyStr.strip) (values names)) /\
    values classes' =
      map (str_cell PyStr.title) (map (str_cell PyStr.strip) (values classes)).
Proof.
  intros L raw d. unfold normalized, and_then.
  set (d1 := rename_columns normalize_label raw).
  destruct (getitem d1 "boat_name") as [s|e] eqn:E1; [|discriminate].
  destruct (str_method PyStr.strip s) as [s1|e] eqn:E2; [|discriminate].
  destruct (str_method PyStr.lower s1) as [s2|e] eqn:E3; [|discriminate].
  rewrite getitem_setitem_other by discriminate.
  destruct (getitem d1 "boat_issue") as [i|e] eqn:E4; [|discriminate].
  destruct (str_method PyStr.strip i) as [i1|e] eqn:E5; [|discriminate].
  rewrite !getitem_setitem_other by discriminate.
  destruct (getitem d1 "boat_issue_(class)") as [c|e] eqn:E6; [|discriminate].
  destruct (str_method PyStr.strip c) as [c1|e] eqn:E7; [|discriminate].
  destruct (str_method PyStr.title c1) as [c2|e] eqn:E8; [|discriminate].
  destruct (getitem _ "date") as [t|e] eqn:E9; [|discriminate].
  intro H. inversion H. subst d. clear H.
  exists s, c, s2, c2. split; [reflexivity|]. split; [reflexivity|].
  rewrite !getitem_setitem_other by discriminate.
  rewrite getitem_setitem_same.
  rewrite getitem_setitem_other by discriminate.
  rewrite getitem_setitem_same.
  split; [reflexivity|]. split; [reflexivity|].
  rewrite (str_method_values _ _ _ E3), (str_method_values _ _ _ E2).
  rewrite (str_method_values _ _ _ E8), (str_method_values _ _ _ E7).
  split; reflexivity.
Qed.

Lemma to_datetime_coerce_datetimelike : forall parse s,
  is_datetimelike (to_datetime_coerce parse s) = true.
Proof.
  intros parse s. unfold is_datetimelike, to_datetime_coerce. simpl.
  apply forallb_forall. intros c Hc. apply in_map_iff in Hc.
  destruct Hc as (c0 & <- & _).
  destruct c0 as [x|z|f|t|]; try reflexivity;
    try (destruct (parse _); reflexivity).
  destruct f; try reflexivity; destruct (parse _); reflexivity.
Qed.

(** The date column of a loaded table is a datetime column, so the
    timeline of C6 is defined on every table the loader returns. *)
Lemma normalized_dates_datetimelike : forall (L : Libraries) raw d,
  normalized raw = Ok d ->
  exists dates, getitem d "date" = Ok dates /\ is_datetimelike dates = true.
Proof.
  intros L raw d. unfold normalized, and_then.
  destruct (getitem _ "boat_name") as [s|e]; [|discriminate].
  destruct (str_method PyStr.strip s) as [s1|e]; [|discriminate].
  destruct (str_method PyStr.lower s1) as [s2|e]; [|discriminate].
  destruct (getitem _ "boat_issue") as [i|e]; [|discriminate].
  destruct (str_method PyStr.strip i) as [i1|e]; [|discriminate].
  destruct (getitem _ "boat_issue_(class)") as [c|e]; [|discriminate].
  destruct (str_method PyStr.strip c) as [c1|e]; [|discriminate].
  destruct (str_method PyStr.title c1) as [c2|e]; [|discriminate].
  destruct (getitem _ "date") as [t|e]; [|discriminate].
  intro H. inversion H. eexists. rewrite getitem_setitem_same.
  split; [reflexivity | apply to_datetime_coerce_datetimelike].
Qed.

(** C8, as the code has it.  For every source the loader accepts, a
    record of the loaded table has a non-null [boat_name] exactly when
    the boat-name cell of that record in the sheet is text, and a
    non-null [boat_issue_class] exactly when its class cell in the sheet
    is text: an empty cell or a cell that holds no text is loaded as the
    missing marker. *)
Theorem load_data_non_null_iff_text :
  forall (L : Libraries) (file : FileSource) (w w' : World) (df : frame_ref),
    load_data file w = (Ok df, w') ->
    exists raw names classes names' classes',
      sheet_of file w = Ok raw /\
      getitem (rename_columns normalize_label raw) "boat_name" = Ok names /\
      getitem (rename_columns normalize_label raw) "boat_issue_(class)" = Ok classes /\
      getitem (frame_at df w') "boat_name" = Ok names' /\
      getitem (frame_at df w') "boat_issue_class" = Ok classes' /\
      Forall2 (fun source loaded => notna loaded = is_Str source)
        (values names) (values names') /\
      Forall2 (fun source loaded => notna loaded = is_Str source)
        (values classes) (values classes').
Proof.
  intros L file w w' df H.
  destruct (load_data_Ok file w w' df H) as (raw & d & Hs & Hn & -> & ->).
  destruct (normalized_names_and_classes L raw d Hn)
    as (names & classes & names' & classes' & H1 & H2 & H3 & H4 & V1 & V2).
  exists raw, names, classes, names', classes'.
  assert (Hd : frame_at (length (frames w)) (with_new_frame w d) = d)
    by (unfold frame_at, with_new_frame; simpl; apply nth_snoc).
  rewrite Hd. repeat (split; [assumption|]).
  rewrite V1, V2, !map_map.
  split; apply Forall2_map_r; intro a; rewrite str_cell_notna;
    destruct a; reflexivity.
Qed.

(** C8 as stated fails: row 4 of the sample sheet has no boat name, the
    loader accepts the sheet, and the loaded record has a null
    [boat_name]. *)
Lemma load_data_keeps_missing_boat_name :
  exists w',
    load_data (Upload (Sheet fleet_sheet)) (session fleet_sheet 0) = (Ok 0, w') /\
    cell_at fleet_sheet "Boat Name" 4 = Some NaN /\
    cell_at (frame_at 0 w') "boat_name" 4 = Some NaN /\
    isna NaN = true.
Proof. eexists. repeat split; vm_compute; reflexivity. Qed.

Lemma load_data_non_null_iff_text_witness :
  exists raw names classes names' classes',
    sheet_of (Upload (Sheet fleet_sheet)) (session fleet_sheet 0) = Ok raw /\
    getitem (rename_columns normalize_label raw) "boat_name" = Ok names /\
    getitem (rename_columns normalize_label raw) "boat_issue_(class)" = Ok classes /\
    getitem (frame_at 0 (loaded fleet_sheet 0)) "boat_name" = Ok names' /\
    getitem (frame_at 0 (loaded fleet_sheet 0)) "boat_issue_class" = Ok classes' /\
    Forall2 (fun source loaded => notna loaded = is_Str source)
      (values names) (values names') /\
    Forall2 (fun source loaded => notna loaded = is_Str source)
      (values classes) (values classes').
Proof.
  apply (load_data_non_null_iff_text toy_libraries (Upload (Sheet fleet_sheet))
           (session fleet_sheet 0) (loaded fleet_sheet 0) 0).
  vm_compute. reflexivity.
Defined.

(* ===================================================================== *)
(** * The script run *)
(* ===================================================================== *)

Section ScriptFacts.
Context {L : Libraries}.

Lemma app_opening : forall (w : World),
  exists rest : frame_ref -> M unit,
    app w =
    bind (load_data (chosen_file w)) (fun df => bind (ai_cluster_issues df 6) rest)
      (with_ui (ui w ++ page_header) w).
Proof.
  intro w. eexists. unfold app.
  unfold bind at 1. unfold render at 1. cbv beta iota.
  unfold bind at 1. unfold render at 1. cbv beta iota.
  unfold bind at 1. unfold render at 1. cbv beta iota.
  unfold bind at 1. unfold st_file_uploader at 1. unfold bind at 1.
  unfold render at 1. cbv beta iota.
  match goal with
  | |- bind (match uploaded ?W with _ => _ end) _ _ = _ =>
      assert (HW : W = with_ui (ui w ++ page_header) w)
        by (unfold with_ui; cbn [ui frames clock disk global_rng uploaded selected];
            rewrite <- !app_assoc; reflexivity)
  end.
  rewrite HW. unfold chosen_file.
  change (uploaded (with_ui (ui w ++ page_header) w)) with (uploaded w).
  destruct (uploaded w); reflexivity.
Qed.

End ScriptFacts.

(** C2, as the code has it.  When the loaded table has fewer than six
    non-missing issue descriptions, the clustering step raises (the
    [ValueError] of k-means whenever the vectorizer has accepted the
    texts; the script has no error class of its own), nothing catches
    the exception, and the script run ends there: the page shows what
    came before the load, and no chart, category browser or download
    button is rendered. *)
Theorem app_stops_at_failed_clustering :
  forall (L : Libraries), LibrariesSpec L ->
  forall (w w1 : World) (df : frame_ref) (issues : Series),
    load_data (chosen_file w) (with_ui (ui w ++ page_header) w) = (Ok df, w1) ->
    getitem (frame_at df w1) "boat_issue" = Ok issues ->
    length (filter notna (values issues)) < 6 ->
    exists e,
      app w = (Raise e, w1) /\
      ui w1 = ui w ++ page_header /\
      existsb is_chart page_header = false /\
      (forall X,
         tfidf_fit_transform "english" (filter notna (values issues)) = Ok X ->
         is_ValueError e = true).
Proof.
  intros L HL w w1 df issues Hload Hissues Hfew.
  destruct (app_opening w) as [rest Happ]. rewrite Happ.
  rewrite (bind_step _ _ _ _ _ _ _ Hload).
  assert (Hui : ui w1 = ui w ++ page_header).
  { destruct (load_data_Ok _ _ _ _ Hload) as (raw & d & _ & _ & _ & ->). reflexivity. }
  unfold bind at 1. rewrite ai_cluster_issues_eq, Hissues.
  destruct (tfidf_fit_transform "english" (filter notna (values issues))) as [X|e] eqn:EX.
  - assert (Hn : n_samples X < 6) by (rewrite (tfidf_rows HL _ _ EX); exact Hfew).
    destruct (kmeans_too_few HL 10 (RandomState_seed 42%Z) X Hn) as [msg Hmsg].
    rewrite Hmsg. exists (ValueError msg).
    split; [reflexivity|]. split; [exact Hui|]. split; reflexivity.
  - exists e. split; [reflexivity|]. split; [exact Hui|].
    split; [reflexivity | intros X HX; discriminate HX].
Qed.

(** C2 as stated fails: on the three reports of the specification's
    scenario the script ends with the uncaught [ValueError] of k-means,
    and the page holds the header and no chart. *)
Lemma app_aborts_on_three_reports :
  exists w',
    app (session small_sheet 0) =
      (Raise (ValueError "n_samples=3 should be >= n_clusters=6."), w') /\
    ui w' = page_header /\
    existsb is_chart (ui w') = false.
Proof. eexists. repeat split; vm_compute; reflexivity. Qed.

Lemma app_stops_at_failed_clustering_witness :
  exists e,
    app (session small_sheet 0) =
      (Raise e, snd (load_data (chosen_file (session small_sheet 0))
                       (with_ui (ui (session small_sheet 0) ++ page_header)
                          (session small_sheet 0)))) /\
    ui (snd (load_data (chosen_file (session small_sheet 0))
               (with_ui (ui (session small_sheet 0) ++ page_header)
                  (session small_sheet 0))))
      = ui (session small_sheet 0) ++ page_header /\
    existsb is_chart page_header = false /\
    (forall X,
       @tfidf_fit_transform toy_libraries "english"
         (filter notna [Str "engine stalls"; Str "engine stall"; Str "leak"]) = Ok X ->
       is_ValueError e = true).
Proof.
  apply (app_stops_at_failed_clustering toy_libraries toy_libraries_spec
           (session small_sheet 0) _ 0
           (mkSeries Object [Str "engine stalls"; Str "engine stall"; Str "leak"])).
  - vm_compute. reflexivity.
  - vm_compute. reflexivity.
  - vm_compute. lia.
Defined.

(* ===================================================================== *)
(** * Normalisation of text *)
(* ===================================================================== *)




























(** A header written with blanks between its words gets one underscore
    for each blank. *)
Example normalize_label_examples :
  normalize_label " Boat Issue (Class) " = "boat_issue_(class)" /\
  normalize_label "BOAT NAME" = "boat_name" /\
  normalize_label "Boat  Name" = "boat__name".
Proof. repeat split; reflexivity. Qed.

(* ===================================================================== *)
(** * More about the loader *)
(* ===================================================================== *)

(** Every step of a successful normalisation, in terms of the sheet
    after renaming. *)
Lemma normalized_inv : forall (L : Libraries) raw d,
  normalized raw = Ok d ->
  exists names s1 s2 issues i1 classes c1 c2 dates,
    getitem (rename_columns normalize_label raw) "boat_name" = Ok names /\
    str_method PyStr.strip names = Ok s1 /\ str_method PyStr.lower s1 = Ok s2 /\
    getitem (rename_columns normalize_label raw) "boat_issue" = Ok issues /\
    str_method PyStr.strip issues = Ok i1 /\
    getitem (rename_columns normalize_label raw) "boat_issue_(class)" = Ok classes /\
    str_method PyStr.strip classes = Ok c1 /\ str_method PyStr.title c1 = Ok c2 /\
    getitem (rename_columns normalize_label raw) "date" = Ok dates /\
    d = setitem
          (setitem
             (setitem
                (setitem (rename_columns normalize_label raw) "boat_name" s2)
                "boat_issue" i1)
             "boat_issue_class" c2)
          "date" (to_datetime_coerce parse_datetime dates).
Proof.
  intros L raw d. unfold normalized, and_then.
  set (d1 := rename_columns normalize_label raw).
  destruct (getitem d1 "boat_name") as [s|e] eqn:E1; [|discriminate].
  destruct (str_method PyStr.strip s) as [s1|e] eqn:E2; [|discriminate].
  destruct (str_method PyStr.lower s1) as [s2|e] eqn:E3; [|discriminate].
  rewrite getitem_setitem_other by discriminate.
  destruct (getitem d1 "boat_issue") as [i|e] eqn:E4; [|discriminate].
  destruct (str_method PyStr.strip i) as [i1|e] eqn:E5; [|discriminate].
  rewrite !getitem_setitem_other by discriminate.
  destruct (getitem d1 "boat_issue_(class)") as [c|e] eqn:E6; [|discriminate].
  destruct (str_method PyStr.strip c) as [c1|e] eqn:E7; [|discriminate].
  destruct (str_method PyStr.title c1) as [c2|e] eqn:E8; [|discriminate].
  rewrite !getitem_setitem_other by discriminate.
  destruct (getitem d1 "date") as [t|e] eqn:E9; [|discriminate].
  intro H. inversion H. subst d. clear H.
  exists s, s1, s2, i, i1, c, c1, c2, t. repeat split; assumption.
Qed.

Lemma frame_at_new : forall (L : Libraries) (w : World) d,
  frame_at (length (frames w)) (with_new_frame w d) = d.
Proof. intros L w d. unfold frame_at, with_new_frame. simpl. apply nth_snoc. Qed.







(** A sheet with the boat-name column missing, for the example below. *)
Example load_data_without_boat_name :
  fst (load_data
         (Upload (Sheet (mkFrame 1 [("Boat Issue", mkSeries Object [Str "leak"])])))
         (session empty_sheet 0))
  = Raise (KeyError "boat_name").
Proof. vm_compute. reflexivity. Qed.


Lemma setitem_nrows : forall d label s, nrows (setitem d label s) = nrows d.
Proof. reflexivity. Qed.

(** X4.  What loading leaves alone.  The loaded table has as many rows
    as the sheet, and every column other than the four the loader writes
    ([boat_name], [boat_issue], [boat_issue_class], [date]) is the
    sheet's column of that normalised label, unchanged; the source class
    column [boat_issue_(class)] is among them, so it stays beside the new
    [boat_issue_class]. *)
Theorem load_data_keeps_other_columns :
  forall (L : Libraries) (file : FileSource) (w w' : World) (df : frame_ref),
    load_data file w = (Ok df, w') ->
    exists raw,
      sheet_of file w = Ok raw /\
      nrows (frame_at df w') = nrows raw /\
      (forall label,
         ~ In label ["boat_name"; "boat_issue"; "boat_issue_class"; "date"] ->
         getitem (frame_at df w') label =
         getitem (rename_columns normalize_label raw) label) /\
      getitem (frame_at df w') "boat_issue_(class)" =
        getitem (rename_columns normalize_label raw) "boat_issue_(class)".
Proof.
  intros L file w w' df H.
  destruct (load_data_Ok file w w' df H) as (raw & d & Hs & Hn & -> & ->).
  destruct (normalized_inv L raw d Hn)
    as (names & s1 & s2 & issues & i1 & classes & c1 & c2 & dates &
        _ & _ & _ & _ & _ & _ & _ & _ & _ & ->).
  rewrite frame_at_new. exists raw. split; [exact Hs|]. split; [reflexivity|].
  assert (Hother : forall label,
            ~ In label ["boat_name"; "boat_issue"; "boat_issue_class"; "date"] ->
            getitem
              (setitem
                 (setitem
                    (setitem
                       (setitem (rename_columns normalize_label raw) "boat_name" s2)
                       "boat_issue" i1) "boat_issue_class" c2)
                 "date" (to_datetime_coerce parse_datetime dates)) label =
            getitem (rename_columns normalize_label raw) label).
  { intros label Hnot. simpl in Hnot.
    rewrite !getitem_setitem_other; [reflexivity | | | |];
      intro E; apply Hnot; subst label; auto. }
  split; [exact Hother|].
  apply Hother. simpl. intros [E|[E|[E|[E|[]]]]]; discriminate E.
Qed.

Lemma load_data_keeps_other_columns_witness :
  exists raw,
    sheet_of (Upload (Sheet fleet_sheet)) (session fleet_sheet 0) = Ok raw /\
    nrows (frame_at 0 (loaded fleet_sheet 0)) = nrows raw /\
    (forall label,
       ~ In label ["boat_name"; "boat_issue"; "boat_issue_class"; "date"] ->
       getitem (frame_at 0 (loaded fleet_sheet 0)) label =
       getitem (rename_columns normalize_label raw) label) /\
    getitem (frame_at 0 (loaded fleet_sheet 0)) "boat_issue_(class)" =
      getitem (rename_columns normalize_label raw) "boat_issue_(class)".
Proof.
  apply (load_data_keeps_other_columns toy_libraries (Upload (Sheet fleet_sheet))
           (session fleet_sheet 0) (loaded fleet_sheet 0) 0).
  vm_compute. reflexivity.
Defined.

(** X5.  Loading makes a table of its own.  A successful [load_data]
    returns a reference that was not in use, puts exactly one new table
    into the store, and leaves every table that was there, the page and
    the clock as they were. *)
Theorem load_data_allocates_one_frame :
  forall (L : Libraries) (file : FileSource) (w w' : World) (df : frame_ref),
    load_data file w = (Ok df, w') ->
    df = length (frames w) /\
    frames w' = frames w ++ [frame_at df w'] /\
    (forall r, r < length (frames w) -> frame_at r w' = frame_at r w) /\
    ui w' = ui w /\ clock w' = clock w.
Proof.
  intros L file w w' df H.
  destruct (load_data_Ok file w w' df H) as (raw & d & Hs & Hn & -> & ->).
  rewrite frame_at_new. split; [reflexivity|]. split; [reflexivity|].
  split; [|split; reflexivity].
  intros r Hr. unfold frame_at, with_new_frame. simpl. apply app_nth1. exact Hr.
Qed.

Lemma load_data_allocates_one_frame_witness :
  1 = length (frames (loaded fleet_sheet 0)) /\
  frames (snd (load_data (Upload (Sheet small_sheet)) (loaded fleet_sheet 0)))
    = frames (loaded fleet_sheet 0)
      ++ [frame_at 1 (snd (load_data (Upload (Sheet small_sheet)) (loaded fleet_sheet 0)))] /\
  (forall r, r < length (frames (loaded fleet_sheet 0)) ->
     frame_at r (snd (load_data (Upload (Sheet small_sheet)) (loaded fleet_sheet 0)))
     = frame_at r (loaded fleet_sheet 0)) /\
  ui (snd (load_data (Upload (Sheet small_sheet)) (loaded fleet_sheet 0)))
    = ui (loaded fleet_sheet 0) /\
  clock (snd (load_data (Upload (Sheet small_sheet)) (loaded fleet_sheet 0)))
    = clock (loaded fleet_sheet 0).
Proof.
  apply (load_data_allocates_one_frame toy_libraries (Upload (Sheet small_sheet))
           (loaded fleet_sheet 0) _ 1).
  vm_compute. reflexivity.
Defined.



(* ===================================================================== *)
(** ** More about the clustering step *)
(* ===================================================================== *)

Lemma length_store_at : forall (A : Type) i (x : A) (l : list A),
  length (store_at i x l) = length l.
Proof.
  intros A i x l. revert i. induction l as [|h t IH]; intros i; destruct i; simpl;
    try reflexivity.
  rewrite IH. reflexivity.
Qed.

Lemma nth_store_at_other : forall (A : Type) i j (x d : A) (l : list A),
  i <> j -> nth j (store_at i x l) d = nth j l d.
Proof.
  intros A i j x d l. revert i j. induction l as [|h t IH]; intros i j Hne;
    destruct i, j; simpl; try reflexivity; [contradiction | apply IH; lia].
Qed.

Lemma store_at_store_at : forall (A : Type) i (x : A) (l : list A),
  store_at i x (store_at i x l) = store_at i x l.
Proof.
  intros A i x l. revert i. induction l as [|h t IH]; intros i; destruct i; simpl;
    try reflexivity.
  rewrite IH. reflexivity.
Qed.

Lemma scatter_scatter : forall mask vals old,
  scatter mask vals (scatter mask vals old) = scatter mask vals old.
Proof.
  induction mask as [|[|] ms IH]; intros vals old; destruct old as [|o os]; simpl;
    try reflexivity.
  - destruct vals as [|v vs]; simpl; rewrite IH; reflexivity.
  - rewrite IH. reflexivity.
Qed.

Lemma assign_assign : forall label s s' cols,
  assign_column label s' (assign_column label s cols) = assign_column label s' cols.
Proof.
  intros label s s' cols. induction cols as [|[l s0] rest IH]; simpl.
  - rewrite String.eqb_refl. reflexivity.
  - destruct (String.eqb l label) eqn:E; simpl; rewrite E; [reflexivity|].
    rewrite IH. reflexivity.
Qed.

Lemma setitem_setitem : forall d label s s',
  setitem (setitem d label s) label s' = setitem d label s'.
Proof.
  intros d label s s'. unfold setitem. simpl. rewrite assign_assign. reflexivity.
Qed.

Lemma lookup_setitem_same : forall d label s,
  lookup_column label (columns (setitem d label s)) = Some s.
Proof. intros d label s. unfold setitem. simpl. apply lookup_assign_same. Qed.

(** Whatever the frame held, a masked assignment that succeeds has
    replaced or added the one column and nothing else. *)
Lemma loc_setitem_mask_Ok : forall d mask label labels d',
  loc_setitem_mask d mask label labels = Ok d' ->
  exists s, d' = setitem d label s /\ length mask = nrows d /\
            length labels = count_true mask.
Proof.
  intros d mask label labels d'. unfold loc_setitem_mask.
  destruct (Nat.eqb (length mask) (nrows d)) eqn:E1; simpl; [|discriminate].
  destruct (Nat.eqb (length labels) (count_true mask)) eqn:E2; simpl; [|discriminate].
  apply Nat.eqb_eq in E1, E2.
  destruct (lookup_column label (columns d)) as [s|].
  - destruct (s_dtype s); intro H; inversion H; eexists; repeat split; assumption.
  - intro H; inversion H; eexists; repeat split; assumption.
Qed.

Lemma loc_setitem_mask_again : forall d mask label labels d',
  loc_setitem_mask d mask label labels = Ok d' ->
  loc_setitem_mask d' mask label labels = Ok d'.
Proof.
  intros d mask label labels d'. unfold loc_setitem_mask.
  destruct (Nat.eqb (length mask) (nrows d)) eqn:E1; simpl; [|discriminate].
  destruct (Nat.eqb (length labels) (count_true mask)) eqn:E2; simpl; [|discriminate].
  destruct (lookup_column label (columns d)) as [s|];
    [destruct (s_dtype s)|]; intro H; inversion H; subst d'; clear H;
    rewrite setitem_nrows, E1; cbn [negb];
    rewrite lookup_setitem_same; cbn [s_dtype values];
    rewrite scatter_scatter, setitem_setitem; reflexivity.
Qed.

Section ClusteringFacts.
Context {L : Libraries}.

(** X7.  A clustering step that fails has changed nothing.  Whatever
    [ai_cluster_issues] raises (the table has no [boat_issue] column, the
    vectorizer rejects the texts, k-means has too few texts for the
    clusters, the assignment does not fit), the table, the other tables,
    the page, the clock and the process-wide random generator are what
    they were before the call: no table is left half written. *)
Theorem ai_cluster_issues_failure_changes_nothing :
  forall (df : frame_ref) (K : nat) (w w' : World) (e : exn),
    ai_cluster_issues df K w = (Raise e, w') -> w' = w.
Proof.
  intros df K w w' e H. rewrite ai_cluster_issues_eq in H.
  destruct (getitem (frame_at df w) "boat_issue") as [s|e0]; [|inversion H; reflexivity].
  destruct (tfidf_fit_transform _ _) as [X|e0]; [|inversion H; reflexivity].
  destruct (fst (kmeans_fit_predict _ _ _ X)) as [clusters|e0]; [|inversion H; reflexivity].
  destruct (loc_setitem_mask _ _ _ clusters) as [d|e0]; [discriminate|].
  inversion H; reflexivity.
Qed.

(** X8.  What a successful clustering step touches.  It returns the
    reference it was given, to the same table object; of that table it
    replaces or adds the column [ai_category] only: the number of rows and
    every other column stay, in particular [boat_issue] itself.  No table
    is added to or removed from the store, every other table, the page,
    the clock and the process-wide random generator are unchanged. *)
Theorem ai_cluster_issues_touches_only_ai_category :
  forall (df r : frame_ref) (K : nat) (w w' : World),
    ai_cluster_issues df K w = (Ok r, w') ->
    r = df /\
    nrows (frame_at df w') = nrows (frame_at df w) /\
    (forall label, label <> "ai_category" ->
       getitem (frame_at df w') label = getitem (frame_at df w) label) /\
    (exists s, getitem (frame_at df w') "ai_category" = Ok s) /\
    length (frames w') = length (frames w) /\
    (forall other, other <> df -> frame_at other w' = frame_at other w) /\
    ui w' = ui w /\ clock w' = clock w /\ global_rng w' = global_rng w.
Proof.
  intros df r K w w' H. rewrite ai_cluster_issues_eq in H.
  destruct (getitem (frame_at df w) "boat_issue") as [s|e0] eqn:Es; [|discriminate].
  destruct (tfidf_fit_transform _ _) as [X|e0]; [|discriminate].
  destruct (fst (kmeans_fit_predict _ _ _ X)) as [clusters|e0]; [|discriminate].
  destruct (loc_setitem_mask _ _ _ clusters) as [d|e0] eqn:Ed; [|discriminate].
  inversion H; subst r w'; clear H.
  pose proof (getitem_valid_ref _ _ _ _ Es) as Hlt.
  rewrite (frame_at_store _ _ _ Hlt).
  destruct (loc_setitem_mask_Ok _ _ _ _ _ Ed) as (s' & -> & Hm & Hl).
  split; [reflexivity|]. split; [reflexivity|].
  split; [intros label Hne; apply getitem_setitem_other; congruence|].
  split.
  { exists s'. apply getitem_setitem_same. }
  split; [simpl; apply length_store_at|].
  split; [|repeat split].
  intros other Hne. unfold frame_at. simpl. apply nth_store_at_other. congruence.
Qed.

End ClusteringFacts.

Lemma ai_cluster_issues_failure_changes_nothing_witness :
  snd (ai_cluster_issues 0 6 (loaded small_sheet 0)) = loaded small_sheet 0.
Proof.
  eapply (@ai_cluster_issues_failure_changes_nothing toy_libraries 0 6
            (loaded small_sheet 0)).
  vm_compute. reflexivity.
Defined.

Lemma ai_cluster_issues_touches_only_ai_category_witness :
  0 = 0 /\
  nrows (frame_at 0 (snd (ai_cluster_issues 0 6 (loaded fleet_sheet 0))))
    = nrows (frame_at 0 (loaded fleet_sheet 0)) /\
  (forall label, label <> "ai_category" ->
     getitem (frame_at 0 (snd (ai_cluster_issues 0 6 (loaded fleet_sheet 0)))) label
     = getitem (frame_at 0 (loaded fleet_sheet 0)) label) /\
  (exists s,
     getitem (frame_at 0 (snd (ai_cluster_issues 0 6 (loaded fleet_sheet 0))))
       "ai_category" = Ok s) /\
  length (frames (snd (ai_cluster_issues 0 6 (loaded fleet_sheet 0))))
    = length (frames (loaded fleet_sheet 0)) /\
  (forall other, other <> 0 ->
     frame_at other (snd (ai_cluster_issues 0 6 (loaded fleet_sheet 0)))
     = frame_at other (loaded fleet_sheet 0)) /\
  ui (snd (ai_cluster_issues 0 6 (loaded fleet_sheet 0))) = ui (loaded fleet_sheet 0) /\
  clock (snd (ai_cluster_issues 0 6 (loaded fleet_sheet 0)))
    = clock (loaded fleet_sheet 0) /\
  global_rng (snd (ai_cluster_issues 0 6 (loaded fleet_sheet 0)))
    = global_rng (loaded fleet_sheet 0).
Proof.
  apply (@ai_cluster_issues_touches_only_ai_category toy_libraries 0 0 6
           (loaded fleet_sheet 0)
           (snd (ai_cluster_issues 0 6 (loaded fleet_sheet 0)))).
  vm_compute. reflexivity.
Defined.

Section ReclusteringFacts.
Context {L : Libraries}.

(** X9.  Clustering twice is clustering once.  After a successful
    clustering step, running the step again on the same table with the
    same number of clusters succeeds and leaves the world exactly as the
    first run left it: the texts are the same, the generator is seeded
    afresh, and the labels are written over themselves, whatever kind of
    column [ai_category] was. *)
Theorem ai_cluster_issues_twice :
  forall (df r : frame_ref) (K : nat) (w w' : World),
    ai_cluster_issues df K w = (Ok r, w') ->
    ai_cluster_issues df K w' = (Ok df, w').
Proof.
  intros df r K w w' H. rewrite ai_cluster_issues_eq in H.
  destruct (getitem (frame_at df w) "boat_issue") as [s|e0] eqn:Es; [|discriminate].
  destruct (tfidf_fit_transform _ _) as [X|e0] eqn:EX; [|discriminate].
  destruct (fst (kmeans_fit_predict _ _ _ X)) as [clusters|e0] eqn:Ec; [|discriminate].
  destruct (loc_setitem_mask _ _ _ clusters) as [d|e0] eqn:Ed; [|discriminate].
  inversion H; subst r w'; clear H.
  pose proof (getitem_valid_ref _ _ _ _ Es) as Hlt.
  rewrite ai_cluster_issues_eq. rewrite (frame_at_store _ _ _ Hlt).
  destruct (loc_setitem_mask_Ok _ _ _ _ _ Ed) as (s' & Hd & _ & _).
  assert (Es' : getitem d "boat_issue" = Ok s).
  { rewrite Hd, getitem_setitem_other by discriminate. exact Es. }
  rewrite Es', EX, Ec, (loc_setitem_mask_again _ _ _ _ _ Ed).
  unfold with_frames. simpl. rewrite store_at_store_at. reflexivity.
Qed.

End ReclusteringFacts.

Lemma ai_cluster_issues_twice_witness :
  ai_cluster_issues 0 6 (snd (ai_cluster_issues 0 6 (loaded fleet_sheet 0)))
  = (Ok 0, snd (ai_cluster_issues 0 6 (loaded fleet_sheet 0))).
Proof.
  apply (@ai_cluster_issues_twice toy_libraries 0 0 6 (loaded fleet_sheet 0)).
  vm_compute. reflexivity.
Defined.

(* ===================================================================== *)
(** ** More about the summaries *)
(* ===================================================================== *)

Lemma list_sum_firstn_skipn : forall n (l : list nat),
  list_sum (firstn n l) + list_sum (skipn n l) = list_sum l.
Proof.
  intros n l. rewrite <- (firstn_skipn n l) at 3. rewrite list_sum_app. reflexivity.
Qed.

Lemma value_counts_total : forall (L : Libraries) (s : Series),
  list_sum (map snd (value_counts s)) = length (filter notna (values s)).
Proof.
  intros L s.
  rewrite (list_sum_perm (Permutation_map snd (value_counts_perm L s))).
  apply sum_count_table.
Qed.

Lemma value_counts_positive : forall (L : Libraries) (s : Series),
  Forall (fun e => 1 <= snd e) (value_counts s).
Proof.
  intros L s. rewrite Forall_forall. intros e He.
  apply (Permutation_in _ (value_counts_perm L s)) in He.
  pose proof (count_table_positive cell_eqb (filter notna (values s))) as H.
  rewrite Forall_forall in H. apply H, He.
Qed.

Lemma value_counts_keys : forall (L : Libraries) (s : Series),
  Permutation (map fst (value_counts s)) (unique (dropna s)).
Proof.
  intros L s. unfold unique, dropna. simpl.
  apply Permutation_map, value_counts_perm.
Qed.

Lemma filter_notna_nil : forall vals,
  filter notna vals = [] <-> Forall (fun c => isna c = true) vals.
Proof.
  induction vals as [|c t IH]; simpl.
  - split; [constructor | reflexivity].
  - unfold notna at 1. destruct (isna c) eqn:E; simpl.
    + rewrite IH. split; [intro H; constructor; assumption|].
      intro H; inversion H; assumption.
    + split; [discriminate|]. intro H; inversion H; congruence.
Qed.

(** X10.  What the top-10 summary accounts for.  Every entry of
    [value_counts().head(10)] counts at least one record; the counts
    shown and the counts of the entries cut off add up to the number of
    records whose value is not missing, so a chart of ten bars can
    account for fewer records than the table has; nothing is cut off when
    the column has at most ten distinct values; and the summary is empty
    exactly when every value of the column is missing. *)
Theorem top10_accounts_for_records : forall (L : Libraries) (s : Series),
  Forall (fun e => 1 <= snd e) (head 10 (value_counts s)) /\
  list_sum (map snd (head 10 (value_counts s)))
    + list_sum (map snd (skipn 10 (value_counts s)))
    = length (filter notna (values s)) /\
  length (head 10 (value_counts s)) = Nat.min 10 (length (unique (dropna s))) /\
  (length (unique (dropna s)) <= 10 -> head 10 (value_counts s) = value_counts s) /\
  (head 10 (value_counts s) = [] <-> Forall (fun c => isna c = true) (values s)).
Proof.
  intros L s. unfold head.
  assert (Hlen : length (value_counts s) = length (unique (dropna s))).
  { rewrite <- (length_map fst). apply Permutation_length, (value_counts_keys L s). }
  split.
  { pose proof (value_counts_positive L s) as H. rewrite Forall_forall in *.
    intros e He. apply H. rewrite <- (firstn_skipn 10 (value_counts s)).
    apply in_or_app. left. exact He. }
  split.
  { rewrite <- (value_counts_total L s).
    rewrite <- (list_sum_firstn_skipn 10 (map snd (value_counts s))).
    rewrite firstn_map, skipn_map. reflexivity. }
  split; [rewrite length_firstn, Hlen; reflexivity|].
  split; [intro H; apply firstn_all2; lia|].
  rewrite <- filter_notna_nil. split.
  - intro H. assert (Hv : value_counts s = []).
    { destruct (value_counts s); [reflexivity | discriminate]. }
    pose proof (value_counts_total L s) as Ht. rewrite Hv in Ht. simpl in Ht.
    destruct (filter notna (values s)); [reflexivity | discriminate].
  - intro H. pose proof (value_counts_total L s) as Ht. rewrite H in Ht. simpl in Ht.
    pose proof (value_counts_positive L s) as Hp.
    destruct (value_counts s) as [|e t]; [reflexivity|].
    inversion Hp; subst. simpl in Ht. lia.
Qed.

Lemma top10_accounts_for_records_witness :
  Forall (fun e => 1 <= snd e)
    (head 10 (@value_counts toy_libraries (mkSeries Object [Str "alpha"; NaN; Str "beta"; Str "alpha"]))) /\
  list_sum (map snd (head 10 (@value_counts toy_libraries
                       (mkSeries Object [Str "alpha"; NaN; Str "beta"; Str "alpha"]))))
    + list_sum (map snd (skipn 10 (@value_counts toy_libraries
                       (mkSeries Object [Str "alpha"; NaN; Str "beta"; Str "alpha"]))))
    = length (filter notna [Str "alpha"; NaN; Str "beta"; Str "alpha"]) /\
  length (head 10 (@value_counts toy_libraries (mkSeries Object [Str "alpha"; NaN; Str "beta"; Str "alpha"])))
    = Nat.min 10 (length (unique (dropna
                    (mkSeries Object [Str "alpha"; NaN; Str "beta"; Str "alpha"])))) /\
  (length (unique (dropna (mkSeries Object [Str "alpha"; NaN; Str "beta"; Str "alpha"]))) <= 10 ->
   head 10 (@value_counts toy_libraries (mkSeries Object [Str "alpha"; NaN; Str "beta"; Str "alpha"]))
   = @value_counts toy_libraries (mkSeries Object [Str "alpha"; NaN; Str "beta"; Str "alpha"])) /\
  (head 10 (@value_counts toy_libraries (mkSeries Object [Str "alpha"; NaN; Str "beta"; Str "alpha"])) = [] <->
   Forall (fun c => isna c = true) [Str "alpha"; NaN; Str "beta"; Str "alpha"]).
Proof.
  exact (top10_accounts_for_records toy_libraries
           (mkSeries Object [Str "alpha"; NaN; Str "beta"; Str "alpha"])).
Defined.

Lemma length_le_list_sum : forall (A : Type) (l : list (A * nat)),
  Forall (fun e => 1 <= snd e) l -> length l <= list_sum (map snd l).
Proof.
  intros A l H. induction H as [|e t He Ht IH]; simpl; lia.
Qed.

Lemma datetimelike_isna_NaT : forall vals,
  forallb (fun c => match c with Time _ | NaT => true | _ => false end) vals = true ->
  (Forall (fun c => isna c = true) vals <-> Forall (fun c => c = NaT) vals).
Proof.
  induction vals as [|c t IH]; simpl; intro H.
  - split; constructor.
  - apply andb_true_iff in H. destruct H as [Hc Ht]. specialize (IH Ht).
    split; intro HF; inversion HF; subst; constructor; try (apply IH; assumption).
    + destruct c as [x|z|f|ts|]; try discriminate; reflexivity.
    + reflexivity.
Qed.

(** X11.  The timeline at its edges.  Over a datetime column the
    timeline has no more months than the table has dated records, and it
    has no month at all exactly when every date is [NaT] (in particular
    for a table without records): the chart is then drawn empty, it is
    not an error. *)
Theorem timeline_empty_iff_no_dates :
  forall (s : Series) (keys : list (option Z)),
    dt_to_period_M s = Ok keys ->
    length (groupby_size keys) <= length (filter notna (values s)) /\
    (groupby_size keys = [] <-> Forall (fun c => c = NaT) (values s)).
Proof.
  intros s keys H.
  pose proof (@groupby_size_summary s keys H) as [_ Hcounts _ Htotal].
  destruct (@dt_to_period_M_Ok s keys H) as [_ Hall].
  assert (Hpos : Forall (fun e : Z * nat => 1 <= snd e) (groupby_size keys)).
  { rewrite Forall_forall. intros [p n] Hin. apply (Hcounts p n Hin). }
  split.
  { rewrite <- Htotal. apply length_le_list_sum, Hpos. }
  rewrite <- (datetimelike_isna_NaT _ Hall), <- filter_notna_nil. split.
  - intro E. rewrite E in Htotal. simpl in Htotal.
    destruct (filter notna (values s)); [reflexivity | discriminate].
  - intro E. rewrite E in Htotal. simpl in Htotal.
    apply length_le_list_sum in Hpos. rewrite Htotal in Hpos.
    destruct (groupby_size keys); [reflexivity | simpl in Hpos; lia].
Qed.

Lemma timeline_empty_iff_no_dates_witness :
  length (groupby_size [None; None]) <= length (filter notna [NaT; NaT]) /\
  (groupby_size [None; None] = [] <-> Forall (fun c => c = NaT) [NaT; NaT]).
Proof.
  apply (timeline_empty_iff_no_dates (mkSeries Datetime64 [NaT; NaT]) [None; None]).
  vm_compute. reflexivity.
Defined.

(* ===================================================================== *)
(** ** More about the exported document *)
(* ===================================================================== *)

Lemma pdf_cell_inv : forall (pdf p : FPDF) (w h : Z) (text : string) (nl : bool) (al : string),
  pdf_cell pdf w h text nl al = Ok p -> latin1 text = true.
Proof.
  intros pdf p w h text nl al. unfold pdf_cell.
  destruct (latin1 text); [reflexivity | discriminate].
Qed.

Lemma for_each_entry_inv : forall (L : Libraries) (entries : list (cell * nat)) (pdf p : FPDF),
  for_each_entry entries pdf = Ok p ->
  Forall (fun e => latin1 (entry_line e) = true) entries.
Proof.
  intros L entries. induction entries as [|e t IH]; intros pdf p H.
  - constructor.
  - cbn [for_each_entry] in H.
    destruct (pdf_cell pdf 200 8 (entry_line e) true "") as [pdf'|x] eqn:E; [|discriminate].
    constructor; [eapply pdf_cell_inv; exact E | eapply IH; exact H].
Qed.

(** A document that [export_doc] returns is the one of [export_doc_Ok]. *)
Lemma export_doc_inv : forall (L : Libraries) (now : Timestamp) (d : DataFrame)
    (doc : Document),
  export_doc now d = Ok doc ->
  exists classes boats,
    getitem d "boat_issue_class" = Ok classes /\
    getitem d "boat_name" = Ok boats /\
    doc =
      [mkPdfCell 200 10 "Boat Issues Report" true "C" "Arial" 14;
       mkPdfCell 200 10 ("Generated: " ++ strftime_minutes now) true "" "Arial" 12;
       mkPdfCell 200 10 "Top Issues:" true "" "Arial" 12]
      ++ map (fun e => mkPdfCell 200 8 (entry_line e) true "" "Arial" 12)
           (head 10 (value_counts classes))
      ++ [mkPdfCell 200 10 "Top Boats:" true "" "Arial" 12]
      ++ map (fun e => mkPdfCell 200 8 (entry_line e) true "" "Arial" 12)
           (head 10 (value_counts boats)).
Proof.
  intros L now d doc H. pose proof H as H0. unfold export_doc in H.
  rewrite (pdf_cell_Ok _ 200 10 "Boat Issues Report" true "C" eq_refl) in H.
  cbn [and_then] in H.
  destruct (pdf_cell _ 200 10 ("Generated: " ++ strftime_minutes now) true "")
    as [p2|x] eqn:E2; [|discriminate].
  cbn [and_then] in H.
  destruct (pdf_cell p2 200 10 "Top Issues:" true "") as [p3|x]; [|discriminate].
  cbn [and_then] in H.
  destruct (getitem d "boat_issue_class") as [classes|x] eqn:Ec; [|discriminate].
  cbn [and_then] in H.
  destruct (for_each_entry (head 10 (value_counts classes)) p3) as [p4|x] eqn:E4;
    [|discriminate].
  cbn [and_then] in H.
  destruct (pdf_cell p4 200 10 "Top Boats:" true "") as [p5|x]; [|discriminate].
  cbn [and_then] in H.
  destruct (getitem d "boat_name") as [boats|x] eqn:Eb; [|discriminate].
  cbn [and_then] in H.
  destruct (for_each_entry (head 10 (value_counts boats)) p5) as [p6|x] eqn:E6;
    [|discriminate].
  exists classes, boats. split; [reflexivity|]. split; [reflexivity|].
  rewrite (export_doc_Ok L now d classes boats Ec Eb (pdf_cell_inv _ _ _ _ _ _ _ E2)
             (for_each_entry_inv L _ _ _ E4) (for_each_entry_inv L _ _ _ E6)) in H0.
  inversion H0. reflexivity.
Qed.

Lemma heights_cons : forall (c : PdfCell) (l : list PdfCell),
  fold_right Z.add 0%Z (map cell_h (c :: l))
  = (cell_h c + fold_right Z.add 0 (map cell_h l))%Z.
Proof. reflexivity. Qed.

Lemma heights_app : forall a b : list PdfCell,
  fold_right Z.add 0%Z (map cell_h (a ++ b))
  = (fold_right Z.add 0 (map cell_h a) + fold_right Z.add 0 (map cell_h b))%Z.
Proof.
  intros a b. induction a as [|x a IH]; simpl; [reflexivity | rewrite IH; lia].
Qed.

Lemma sum_heights_entries : forall (L : Libraries) (entries : list (cell * nat)),
  fold_right Z.add 0%Z
    (map cell_h (map (fun e => mkPdfCell 200 8 (entry_line e) true "" "Arial" 12) entries))
  = (8 * Z.of_nat (length entries))%Z.
Proof.
  intros L entries. induction entries as [|e t IH].
  - reflexivity.
  - cbn [map fold_right cell_h length]. rewrite IH. lia.
Qed.

(** X12.  The layout of the report.  A document that [export_pdf]
    returns has four cells and one more for each entry of the two
    summaries, at most 24: the first is the centred title in Arial 14,
    every other cell is in Arial 12 and not centred, every cell is 200
    wide and ends its line, and the heights of the cells add up to at
    most 200. *)
Theorem export_pdf_layout :
  forall (L : Libraries) (w w' : World) (df : frame_ref) (doc : Document),
    export_pdf df w = (Ok doc, w') ->
    exists title rest classes boats,
      doc = title :: rest /\
      title = mkPdfCell 200 10 "Boat Issues Report" true "C" "Arial" 14 /\
      Forall (fun c => cell_w c = 200%Z /\ ln c = true /\ align c = "" /\
                       font_family c = "Arial" /\ font_size c = 12%Z) rest /\
      getitem (frame_at df w) "boat_issue_class" = Ok classes /\
      getitem (frame_at df w) "boat_name" = Ok boats /\
      length doc
        = 4 + length (head 10 (value_counts classes))
            + length (head 10 (value_counts boats)) /\
      length doc <= 24 /\
      (fold_right Z.add 0 (map cell_h doc) <= 200)%Z.
Proof.
  intros L w w' df doc H. rewrite export_pdf_eq in H. inversion H as [[Hdoc Hw]].
  subst w'. clear H.
  destruct (export_doc_inv L (clock w) (frame_at df w) doc Hdoc)
    as (classes & boats & Hc & Hb & ->).
  eexists. eexists. exists classes, boats.
  split; [reflexivity|]. split; [reflexivity|].
  set (issues := head 10 (value_counts classes)).
  set (top := head 10 (value_counts boats)).
  assert (Hi : length issues <= 10) by (unfold issues, head; rewrite length_firstn; lia).
  assert (Ht : length top <= 10) by (unfold top, head; rewrite length_firstn; lia).
  clearbody issues top.
  split.
  { repeat (apply Forall_cons; [cbn; auto|]).
    apply Forall_app. split.
    - rewrite Forall_forall. intros c Hin. apply in_map_iff in Hin.
      destruct Hin as (e & <- & _). cbn. auto.
    - apply Forall_cons; [cbn; auto|].
      rewrite Forall_forall. intros c Hin. apply in_map_iff in Hin.
      destruct Hin as (e & <- & _). cbn. auto. }
  split; [exact Hc|]. split; [exact Hb|].
  assert (Hlen : length
            ([mkPdfCell 200 10 "Boat Issues Report" true "C" "Arial" 14;
              mkPdfCell 200 10 ("Generated: " ++ strftime_minutes (clock w)) true ""
                "Arial" 12;
              mkPdfCell 200 10 "Top Issues:" true "" "Arial" 12]
             ++ map (fun e => mkPdfCell 200 8 (entry_line e) true "" "Arial" 12) issues
             ++ [mkPdfCell 200 10 "Top Boats:" true "" "Arial" 12]
             ++ map (fun e => mkPdfCell 200 8 (entry_line e) true "" "Arial" 12) top)
          = 4 + length issues + length top).
  { rewrite !length_app, !length_map. cbn [length]. lia. }
  split; [exact Hlen|]. split; [rewrite Hlen; lia|].
  rewrite !heights_app, !sum_heights_entries.
  cbn [map fold_right cell_h]. lia.
Qed.

Lemma export_pdf_layout_witness :
  exists title rest classes boats,
    fst (export_pdf 0 (loaded fleet_sheet 0)) = Ok (title :: rest) /\
    title = mkPdfCell 200 10 "Boat Issues Report" true "C" "Arial" 14 /\
    Forall (fun c => cell_w c = 200%Z /\ ln c = true /\ align c = "" /\
                     font_family c = "Arial" /\ font_size c = 12%Z) rest /\
    getitem (frame_at 0 (loaded fleet_sheet 0)) "boat_issue_class" = Ok classes /\
    getitem (frame_at 0 (loaded fleet_sheet 0)) "boat_name" = Ok boats /\
    length (title :: rest)
      = 4 + length (head 10 (@value_counts toy_libraries classes))
          + length (head 10 (@value_counts toy_libraries boats)) /\
    length (title :: rest) <= 24 /\
    (fold_right Z.add 0 (map cell_h (title :: rest)) <= 200)%Z.
Proof.
  destruct (export_pdf_layout toy_libraries (loaded fleet_sheet 0) (loaded fleet_sheet 0) 0
              (match fst (export_pdf 0 (loaded fleet_sheet 0)) with
               | Ok doc => doc
               | Raise _ => []
               end))
    as (title & rest & classes & boats & Hdoc & Htitle & Hrest & Hc & Hb & Hlen & H24 & Hh).
  - vm_compute. reflexivity.
  - exists title, rest, classes, boats.
    rewrite <- Hdoc.
    split; [vm_compute; reflexivity|].
    split; [exact Htitle|]. split; [exact Hrest|]. split; [exact Hc|]. split; [exact Hb|].
    split; [exact Hlen|]. split; [exact H24 | exact Hh].
Defined.

(* ===================================================================== *)
(** ** More about the script run *)
(* ===================================================================== *)

Section RunFacts.
Context {L : Libraries}.

(** The script is the header, the load, the clustering step and then
    [page_body]. *)
Lemma app_eq : forall (w : World),
  app w =
  bind (load_data (chosen_file w)) (fun df => bind (ai_cluster_issues df 6) page_body)
    (with_ui (ui w ++ page_header) w).
Proof.
  intro w. unfold app.
  unfold bind at 1. unfold render at 1. cbv beta iota.
  unfold bind at 1. unfold render at 1. cbv beta iota.
  unfold bind at 1. unfold render at 1. cbv beta iota.
  unfold bind at 1. unfold st_file_uploader at 1. unfold bind at 1.
  unfold render at 1. cbv beta iota.
  match goal with
  | |- bind (match uploaded ?W with _ => _ end) _ _ = _ =>
      assert (HW : W = with_ui (ui w ++ page_header) w)
        by (unfold with_ui; cbn [ui frames clock disk global_rng uploaded selected];
            rewrite <- !app_assoc; reflexivity)
  end.
  rewrite HW. unfold chosen_file.
  change (uploaded (with_ui (ui w ++ page_header) w)) with (uploaded w).
  destruct (uploaded w); reflexivity.
Qed.

Lemma load_data_unreadable : forall (file : FileSource) (w : World) (e : exn),
  sheet_of file w = Raise e -> load_data file w = (Raise e, w).
Proof.
  intros file w e H. unfold load_data. unfold bind at 1. unfold read_excel.
  rewrite H. reflexivity.
Qed.

(** X13.  No readable file, no page.  When the file the script is to
    load cannot be read as a sheet, the run ends with that error and the
    page shows the header and nothing else: no table is created and no
    chart, browser or download button appears.  An uploaded file is
    always the one loaded; with no upload and no default workbook on disk
    the error is the [FileNotFoundError] naming
    [chicago_boat_issues.xlsx]. *)
Theorem app_stops_at_unreadable_file :
  forall (w : World) (e : exn),
    sheet_of (chosen_file w) w = Raise e ->
    app w = (Raise e, with_ui (ui w ++ page_header) w) /\
    (forall wb, uploaded w = Some wb -> chosen_file w = Upload wb /\ wb = Unreadable) /\
    (uploaded w = None -> disk_lookup DEFAULT_FILE (disk w) = None ->
     e = FileNotFoundError "chicago_boat_issues.xlsx").
Proof.
  intros w e H. split; [|split].
  - rewrite app_eq. unfold bind at 1.
    rewrite (load_data_unreadable (chosen_file w) (with_ui (ui w ++ page_header) w) e);
      [reflexivity|].
    exact H.
  - intros wb Hu. unfold chosen_file in *. rewrite Hu in *. split; [reflexivity|].
    unfold sheet_of in H. destruct wb; [discriminate | reflexivity].
  - intros Hu Hd. unfold chosen_file in H. rewrite Hu in H.
    unfold sheet_of in H. rewrite Hd in H. inversion H. reflexivity.
Qed.

End RunFacts.

Lemma app_stops_at_unreadable_file_witness :
  app (mkWorld (L := toy_libraries) [] [] (mkTimestamp 2024 3 7 9 5 0) [] 0%Z None 0)
  = (Raise (FileNotFoundError "chicago_boat_issues.xlsx"),
     with_ui (ui (mkWorld (L := toy_libraries) [] [] (mkTimestamp 2024 3 7 9 5 0) []
                    0%Z None 0) ++ page_header)
       (mkWorld (L := toy_libraries) [] [] (mkTimestamp 2024 3 7 9 5 0) [] 0%Z None 0)) /\
  (forall wb,
     uploaded (mkWorld (L := toy_libraries) [] [] (mkTimestamp 2024 3 7 9 5 0) []
                 0%Z None 0) = Some wb ->
     chosen_file (mkWorld (L := toy_libraries) [] [] (mkTimestamp 2024 3 7 9 5 0) []
                    0%Z None 0) = Upload wb /\ wb = Unreadable) /\
  (uploaded (mkWorld (L := toy_libraries) [] [] (mkTimestamp 2024 3 7 9 5 0) []
               0%Z None 0) = None ->
   disk_lookup DEFAULT_FILE
     (disk (mkWorld (L := toy_libraries) [] [] (mkTimestamp 2024 3 7 9 5 0) []
              0%Z None 0)) = None ->
   FileNotFoundError "chicago_boat_issues.xlsx"
   = FileNotFoundError "chicago_boat_issues.xlsx").
Proof.
  apply (@app_stops_at_unreadable_file toy_libraries
           (mkWorld (L := toy_libraries) [] [] (mkTimestamp 2024 3 7 9 5 0) [] 0%Z None 0)
           (FileNotFoundError "chicago_boat_issues.xlsx")).
  vm_compute. reflexivity.
Defined.
